(** * Realtime diagram synchronisation: snapshot normaliser, room registry,
      connection gateway and REST diagram service.

    Shallow embedding of
      - backend/src/diagram-realtime/realtime.service.ts
      - backend/src/diagram-realtime/diagram.gateway.ts
      - backend/src/diagram-realtime/dto/events.ts
      - backend/src/diagrams/diagrams.module.ts (DiagramsService)
    Asynchronous handlers are modelled as run to completion: every [await]
    is a sequencing point of a state-passing function over the world. *)

From Stdlib Require Import ZArith Lia List Ascii String.
From stdpp Require Import base option gmap strings list fin_maps.
Import ListNotations.

Local Open Scope Z_scope.
#[local] Set Warnings "-register-all".

(* ===================================================================== *)
(** ** JSON values (Prisma.JsonValue) *)
(* ===================================================================== *)

(** [Prisma.JsonValue = string | number | boolean | JsonObject | JsonArray | null].
    Numbers are opaque to this code base; integers stand in for them.  An
    object is the list of its own properties, first binding wins. *)
Inductive JsonValue : Type :=
  | JNull
  | JBool (b : bool)
  | JNumber (n : Z)
  | JString (s : string)
  | JArray (items : list JsonValue)
  | JObject (props : list (string * JsonValue)).

(** [obj.key] on a plain record: the own property, or [undefined]. *)
Fixpoint get_prop (key : string) (props : list (string * JsonValue))
  : option JsonValue :=
  match props with
  | [] => None
  | (k, v) :: rest => if String.eqb k key then Some v else get_prop key rest
  end.

(* ===================================================================== *)
(** ** Date.prototype.toISOString *)
(* ===================================================================== *)

Module Iso.

Definition msPerDay : Z := 86400000.

(** Gregorian (year, month, day) of a day count since 1970-01-01. *)
Definition civil_from_days (days : Z) : Z * Z * Z :=
  let z := days + 719468 in
  let era := z / 146097 in
  let doe := z - era * 146097 in
  let yoe := (doe - doe / 1460 + doe / 36524 - doe / 146096) / 365 in
  let doy := doe - (365 * yoe + yoe / 4 - yoe / 100) in
  let mp := (5 * doy + 2) / 153 in
  let d := doy - (153 * mp + 2) / 5 + 1 in
  let m := if (mp <? 10)%Z then mp + 3 else mp - 9 in
  let y := yoe + era * 400 + (if (m <=? 2)%Z then 1 else 0) in
  (y, m, d).

Definition digit (n : Z) : ascii :=
  ascii_of_nat (48 + Z.to_nat (n mod 10)).

(** The [k] least significant decimal digits of [n], most significant first. *)
Fixpoint pad (k : nat) (n : Z) : string :=
  match k with
  | O => EmptyString
  | S k' => String.append (pad k' (n / 10)) (String (digit n) EmptyString)
  end.

(** Four digits for years 0..9999, otherwise a sign and six digits. *)
Definition year_str (y : Z) : string :=
  if ((0 <=? y)%Z && (y <=? 9999)%Z)%bool then pad 4 y
  else String.append (if (y <? 0)%Z then "-" else "+")%string (pad 6 (Z.abs y)).

(** [new Date(ms).toISOString()], [ms] milliseconds since the epoch. *)
Definition toISOString (ms : Z) : string :=
  let days := ms / msPerDay in
  let rem := ms mod msPerDay in
  let '(y, m, d) := civil_from_days days in
  String.concat EmptyString
    [ year_str y; "-"; pad 2 m; "-"; pad 2 d; "T";
      pad 2 (rem / 3600000); ":"; pad 2 (rem / 60000 mod 60); ":";
      pad 2 (rem / 1000 mod 60); "."; pad 3 (rem mod 1000); "Z" ]%string.

(** The shape of a result: [YYYY-MM-DDTHH:mm:ss.sssZ], or the same with a
    signed six-digit year. *)
Definition is_digit (c : ascii) : bool :=
  let n := nat_of_ascii c in (48 <=? n)%nat && (n <=? 57)%nat.

Fixpoint all_digits (s : string) : bool :=
  match s with
  | EmptyString => true
  | String c rest => is_digit c && all_digits rest
  end.

Definition drop (n : nat) (s : string) : string :=
  substring n (String.length s - n) s.

Definition time_shape (s : string) : bool :=
  (String.length s =? 20)%nat
  && String.eqb (substring 0 1 s) "-" && all_digits (substring 1 2 s)
  && String.eqb (substring 3 1 s) "-" && all_digits (substring 4 2 s)
  && String.eqb (substring 6 1 s) "T" && all_digits (substring 7 2 s)
  && String.eqb (substring 9 1 s) ":" && all_digits (substring 10 2 s)
  && String.eqb (substring 12 1 s) ":" && all_digits (substring 13 2 s)
  && String.eqb (substring 15 1 s) "." && all_digits (substring 16 3 s)
  && String.eqb (substring 19 1 s) "Z".

Definition iso_shape (s : string) : bool :=
  (all_digits (substring 0 4 s) && time_shape (drop 4 s))
  || ((String.eqb (substring 0 1 s) "+" || String.eqb (substring 0 1 s) "-")
      && all_digits (substring 1 6 s) && time_shape (drop 7 s)).

End Iso.

(* ===================================================================== *)
(** ** Snapshot normaliser (realtime.service.ts, lines 7-61) *)
(* ===================================================================== *)

(** [DiagramSnapshot = { nodes: any[]; edges: any[]; updatedAt: string }]. *)
Record DiagramSnapshot : Type := mkSnapshot {
  nodes : list JsonValue;
  edges : list JsonValue;
  updatedAt : string;
}.

(** A [DiagramSnapshot] seen as the JSON object it is at run time: the value
    written to the [Json] column and the value [toSnapshot] receives when it
    is handed one of its own results. *)
Definition snapshot_json (s : DiagramSnapshot) : JsonValue :=
  JObject [ ("nodes"%string, JArray (nodes s));
            ("edges"%string, JArray (edges s));
            ("updatedAt"%string, JString (updatedAt s)) ].

(** JavaScript truthiness of a string: every string but the empty one. *)
Definition truthy_string (s : string) : bool :=
  match s with EmptyString => false | String _ _ => true end.

(** The type guard [isRecord(v)]: [!!v && typeof v === 'object' &&
    !Array.isArray(v)].  It answers with the narrowed value, the record's
    properties, when the test holds; [None] as argument is [undefined]. *)
Definition isRecord (v : option JsonValue) : option (list (string * JsonValue)) :=
  match v with
  | Some (JObject props) => Some props
  | _ => None
  end.

Section Normalizer.

(** Clock reading when the module was evaluated: [EMPTY_SNAPSHOT] is a
    module constant and its [new Date()] runs once, at that instant. *)
Variable t_load : Z.

(** [JSON.parse]; [None] when it throws. *)
Variable JSON_parse : string -> option JsonValue.

Definition EMPTY_SNAPSHOT : DiagramSnapshot :=
  {| nodes := []; edges := []; updatedAt := Iso.toISOString t_load |}.

(** [coerceSnapshot(obj)], called at clock reading [now]. *)
Definition coerceSnapshot (now : Z) (obj : list (string * JsonValue))
  : DiagramSnapshot :=
  let nodes :=
    match get_prop "nodes" obj with Some (JArray l) => l | _ => [] end in
  let edges :=
    match get_prop "edges" obj with Some (JArray l) => l | _ => [] end in
  let updatedAt :=
    match get_prop "updatedAt" obj with
    | Some (JString s) => if truthy_string s then s else Iso.toISOString now
    | _ => Iso.toISOString now
    end in
  {| nodes := nodes; edges := edges; updatedAt := updatedAt |}.

(** [toSnapshot(value)], called at clock reading [now].  [{ ...EMPTY_SNAPSHOT }]
    is a shallow copy: same field values as the constant. *)
Definition toSnapshot (now : Z) (value : option JsonValue) : DiagramSnapshot :=
  match value with
  | None | Some JNull => EMPTY_SNAPSHOT
  | Some (JString s) =>
      match JSON_parse s with
      | Some parsed =>
          match isRecord (Some parsed) with
          | Some obj => coerceSnapshot now obj
          | None => EMPTY_SNAPSHOT
          end
      | None => EMPTY_SNAPSHOT
      end
  | Some v =>
      match isRecord (Some v) with
      | Some obj => coerceSnapshot now obj
      | None => EMPTY_SNAPSHOT
      end
  end.

End Normalizer.

(** The snapshot invariant of the data model on a raw JSON value: an object
    whose [nodes] and [edges] are arrays. *)
Definition snapshot_shaped (v : JsonValue) : bool :=
  match v with
  | JObject props =>
      match get_prop "nodes" props, get_prop "edges" props with
      | Some (JArray _), Some (JArray _) => true
      | _, _ => false
      end
  | _ => false
  end.

(* ===================================================================== *)
(** ** The persistent store (PrismaService) *)
(* ===================================================================== *)

(** Membership roles as they are stored in [projectMember.role]. *)
Inductive MemberRole : Type := M_OWNER | M_ADMIN | M_EDITOR | M_VIEWER.

Inductive RequestStatus : Type := PENDING | APPROVED.

Record Project : Type := mkProject { ownerId : string }.

Record EditRequest : Type := mkEditRequest {
  er_id : string;
  er_status : RequestStatus;
  er_message : option string;
}.

(** One entry per call into Prisma, so that "no store access" can be stated. *)
Inductive Query : Type :=
  | diagram_findUnique (projectId : string)
  | diagram_create (projectId : string)
  | diagram_update (projectId : string)
  | diagram_upsert (projectId : string)
  | project_findUnique (id : string)
  | projectMember_findUnique (projectId userId : string)
  | projectMember_upsert (projectId userId : string)
  | editRequest_upsert (projectId requesterId : string)
  | editRequest_updateMany (projectId requesterId : string).

(** The tables the realtime core and the REST diagram service touch.
    [projectMember] and [editRequest] are keyed by their compound unique keys
    ([projectId_userId], [projectId_requesterId]); [diagram] is keyed by
    [projectId] and holds the [snapshot] JSON column.  Store calls are taken
    to succeed: no handler of this code catches a store failure. *)
Record Store : Type := mkStore {
  projects : gmap string Project;
  projectMembers : gmap (string * string) MemberRole;
  editRequests : gmap (string * string) EditRequest;
  diagrams : gmap string JsonValue;
  queryLog : list Query; (* newest first *)
}.

Definition logged (q : Query) (st : Store) : Store :=
  {| projects := projects st; projectMembers := projectMembers st;
     editRequests := editRequests st; diagrams := diagrams st;
     queryLog := q :: queryLog st |}.

Definition with_diagrams (d : gmap string JsonValue) (st : Store) : Store :=
  {| projects := projects st; projectMembers := projectMembers st;
     editRequests := editRequests st; diagrams := d;
     queryLog := queryLog st |}.

Definition with_projectMembers (m : gmap (string * string) MemberRole)
  (st : Store) : Store :=
  {| projects := projects st; projectMembers := m;
     editRequests := editRequests st; diagrams := diagrams st;
     queryLog := queryLog st |}.

Definition with_editRequests (r : gmap (string * string) EditRequest)
  (st : Store) : Store :=
  {| projects := projects st; projectMembers := projectMembers st;
     editRequests := r; diagrams := diagrams st;
     queryLog := queryLog st |}.

Module Prisma.

(** [prisma.diagram.findUnique({ where: { projectId } })] *)
Definition diagram_find (projectId : string) (st : Store)
  : option JsonValue * Store :=
  (diagrams st !! projectId, logged (diagram_findUnique projectId) st).

(** [prisma.diagram.create({ data: { projectId, snapshot } })] *)
Definition diagram_insert (projectId : string) (snap : JsonValue) (st : Store)
  : Store :=
  logged (diagram_create projectId)
    (with_diagrams (<[projectId := snap]> (diagrams st)) st).

(** [prisma.diagram.update({ where: { projectId }, data: { snapshot } })];
    [false] when no record matches (Prisma rejects). *)
Definition diagram_set (projectId : string) (snap : JsonValue) (st : Store)
  : bool * Store :=
  match diagrams st !! projectId with
  | Some _ =>
      (true, logged (diagram_update projectId)
               (with_diagrams (<[projectId := snap]> (diagrams st)) st))
  | None => (false, logged (diagram_update projectId) st)
  end.

(** [prisma.diagram.upsert({ where, update: { snapshot }, create })] *)
Definition diagram_put (projectId : string) (snap : JsonValue) (st : Store)
  : JsonValue * Store :=
  (snap, logged (diagram_upsert projectId)
           (with_diagrams (<[projectId := snap]> (diagrams st)) st)).

(** [prisma.project.findUnique({ where: { id }, select: { ownerId, members:
    { where: { userId } } } })]: the owner and whether a membership row of
    [userId] exists ([members.length] is 0 or 1 under the compound key). *)
Definition project_find_with_member (id userId : string) (st : Store)
  : option (string * bool) * Store :=
  (match projects st !! id with
   | Some p => Some (ownerId p, bool_decide (is_Some (projectMembers st !! (id, userId))))
   | None => None
   end,
   logged (project_findUnique id) st).

(** [prisma.project.findUnique({ where: { id } })] *)
Definition project_find (id : string) (st : Store) : option Project * Store :=
  (projects st !! id, logged (project_findUnique id) st).

(** [prisma.projectMember.findUnique({ where: { projectId_userId } })] *)
Definition member_find (projectId userId : string) (st : Store)
  : option MemberRole * Store :=
  (projectMembers st !! (projectId, userId),
   logged (projectMember_findUnique projectId userId) st).

(** [prisma.projectMember.upsert]: same role on update and on create. *)
Definition member_put (projectId userId : string) (r : MemberRole) (st : Store)
  : Store :=
  logged (projectMember_upsert projectId userId)
    (with_projectMembers (<[(projectId, userId) := r]> (projectMembers st)) st).

(** [prisma.editRequest.upsert]: an existing row is reset to PENDING with
    the new message; a new row gets the identifier [fresh] and the status
    the schema defaults to, PENDING. *)
Definition request_put (fresh : string) (projectId requesterId : string)
  (message : option string) (st : Store) : EditRequest * Store :=
  let row :=
    match editRequests st !! (projectId, requesterId) with
    | Some old => {| er_id := er_id old; er_status := PENDING; er_message := message |}
    | None => {| er_id := fresh; er_status := PENDING; er_message := message |}
    end in
  (row, logged (editRequest_upsert projectId requesterId)
          (with_editRequests (<[(projectId, requesterId) := row]> (editRequests st)) st)).

(** [prisma.editRequest.updateMany({ where: { projectId, requesterId,
    status: 'PENDING' }, data: { status: 'APPROVED' } })] *)
Definition request_approve_pending (projectId requesterId : string) (st : Store)
  : Store :=
  logged (editRequest_updateMany projectId requesterId)
    (match editRequests st !! (projectId, requesterId) with
     | Some old =>
         match er_status old with
         | PENDING =>
             with_editRequests
               (<[(projectId, requesterId) :=
                    {| er_id := er_id old; er_status := APPROVED;
                       er_message := er_message old |}]> (editRequests st)) st
         | APPROVED => st
         end
     | None => st
     end).

End Prisma.

(* ===================================================================== *)
(** ** Patches (dto/events.ts) *)
(* ===================================================================== *)

Inductive Patch : Type :=
  | nodeMoved (id : string) (x y : Z)
  | nodeAttrs (id : string) (attrs : JsonValue)
  | edgeAdded (edge : JsonValue)
  | edgeRemoved (id : string)
  | full (snapshot_nodes snapshot_edges : list JsonValue).

Record JoinPayload : Type := mkJoin {
  jp_projectId : string;
  jp_shareToken : option string;
  jp_authToken : option string;
}.

Record RequestEditPayload : Type := mkRequestEdit {
  rq_projectId : string;
  rq_message : option string;
}.

(** [role] is typed ['EDITOR' | 'VIEWER'] but arrives as an unchecked string. *)
Record ApproveEditPayload : Type := mkApprove {
  ap_projectId : string;
  ap_userId : string;
  ap_role : option string;
}.

(* ===================================================================== *)
(** ** World state: room registry, store, socket layer *)
(* ===================================================================== *)

(** [RoomState].  [debouncedSave] is the lodash debounce of the save closure;
    what the room keeps of it is whether its timer is armed. *)
Record RoomState : Type := mkRoom {
  snapshot : DiagramSnapshot;
  pendingPatches : list Patch;
  saveArmed : bool;
}.

Inductive Role : Type := VIEWER | EDITOR | OWNER.

(** [client.data] once a join has completed: [{ projectId, userId, role }]. *)
Record ClientData : Type := mkClientData {
  cd_projectId : string;
  cd_userId : option string;
  cd_role : Role;
}.

Inductive JoinDeniedReason : Type := invalid_share_link | unauthorized.
Inductive EditDeniedReason : Type := no_permission | login_required.
Inductive PresenceEvent : Type := join | leave.

(** Events the server emits. *)
Inductive ServerEvent : Type :=
  | joinDenied (reason : JoinDeniedReason)
  | joined (snap : DiagramSnapshot) (role : Role)
  | presence (userId : option string) (role : option Role) (event : PresenceEvent)
  | editDenied (reason : EditDeniedReason)
  | remotePatch (patch : Patch)
  | editGranted (role : MemberRole)
  | requestQueued
  | editRequest (projectId requesterId requestId : string) (message : option string)
  | memberUpdated (userId role : string).

(** Where an emit goes: [client.emit], [server.to(room).emit],
    [client.to(room).emit] (everyone in the room but the sender). *)
Inductive Target : Type :=
  | ToClient (client : string)
  | ToRoom (room : string)
  | ToOthers (room : string) (sender : string).

(** [rooms] is [RealtimeService.rooms]; a room is reached only through this
    map, so its key is its identity.  [groups] holds the (socket, socket.io
    room) pairs made by [client.join]; a socket without a [clientData] entry
    still has the initial [client.data = {}].  [outbox] lists the emits,
    newest first. *)
Record World : Type := mkWorld {
  rooms : gmap string RoomState;
  store : Store;
  groups : gset (string * string);
  clientData : gmap string ClientData;
  outbox : list (Target * ServerEvent);
}.

Definition with_rooms (r : gmap string RoomState) (w : World) : World :=
  {| rooms := r; store := store w; groups := groups w;
     clientData := clientData w; outbox := outbox w |}.

Definition with_store (st : Store) (w : World) : World :=
  {| rooms := rooms w; store := st; groups := groups w;
     clientData := clientData w; outbox := outbox w |}.

Definition with_clientData (d : gmap string ClientData) (w : World) : World :=
  {| rooms := rooms w; store := store w; groups := groups w;
     clientData := d; outbox := outbox w |}.

(** [client.join(room)] *)
Definition socket_join (client room : string) (w : World) : World :=
  {| rooms := rooms w; store := store w;
     groups := {[ (client, room) ]} ∪ groups w;
     clientData := clientData w; outbox := outbox w |}.

Definition emit (t : Target) (e : ServerEvent) (w : World) : World :=
  {| rooms := rooms w; store := store w; groups := groups w;
     clientData := clientData w; outbox := (t, e) :: outbox w |}.

(** The value of a [string | null | undefined] when it is truthy. *)
Definition as_truthy (o : option string) : option string :=
  match o with
  | Some s => if truthy_string s then Some s else None
  | None => None
  end.

(** Decoded token payload: the two claims the gateway reads. *)
Record JwtPayload : Type := mkPayload {
  jwt_id : option string;
  jwt_sub : option string;
}.

(* ===================================================================== *)
(** ** RealtimeService (realtime.service.ts, lines 70-147) *)
(* ===================================================================== *)

Section Realtime.

Variable t_load : Z.
Variable JSON_parse : string -> option JsonValue.

(** [loadInitial(projectId)] *)
Definition loadInitial (now : Z) (projectId : string) (w : World)
  : DiagramSnapshot * World :=
  let '(diagram, st) := Prisma.diagram_find projectId (store w) in
  match diagram with
  | None =>
      let fresh := EMPTY_SNAPSHOT t_load in
      (fresh,
       with_store (Prisma.diagram_insert projectId (snapshot_json fresh) st) w)
  | Some persisted =>
      (toSnapshot t_load JSON_parse now (Some persisted), with_store st w)
  end.

(** [getRoom(projectId)] *)
Definition getRoom (projectId : string) (w : World) : option RoomState :=
  rooms w !! projectId.

(** [ensureRoom(projectId)] *)
Definition ensureRoom (now : Z) (projectId : string) (w : World)
  : RoomState * World :=
  match rooms w !! projectId with
  | Some room => (room, w)
  | None =>
      let '(snap, w1) := loadInitial now projectId w in
      let state :=
        {| snapshot := snap; pendingPatches := []; saveArmed := false |} in
      (state, with_rooms (<[projectId := state]> (rooms w1)) w1)
  end.

(** [queuePatch(projectId, patch)]: push, then (re)arm the debounce timer. *)
Definition queuePatch (projectId : string) (patch : Patch) (w : World) : World :=
  match rooms w !! projectId with
  | None => w
  | Some room =>
      with_rooms
        (<[projectId :=
             {| snapshot := snapshot room;
                pendingPatches := pendingPatches room ++ [patch];
                saveArmed := true |}]> (rooms w)) w
  end.

(** The closure handed to [debounce] in [ensureRoom], run when the timer of
    [projectId] fires at clock reading [now]. *)
Definition debouncedSave (now : Z) (projectId : string) (w : World) : World :=
  match rooms w !! projectId with
  | None => w
  | Some room =>
      let toSave :=
        {| nodes := nodes (snapshot room); edges := edges (snapshot room);
           updatedAt := Iso.toISOString now |} in
      let '(ok, st) :=
        Prisma.diagram_set projectId (snapshot_json toSave) (store w) in
      let kept := if ok then toSave else snapshot room in
      with_rooms
        (<[projectId :=
             {| snapshot := kept; pendingPatches := pendingPatches room;
                saveArmed := false |}]> (rooms w))
        (with_store st w)
  end.

End Realtime.

(* ===================================================================== *)
(** ** DiagramGateway (diagram.gateway.ts) *)
(* ===================================================================== *)

Section Gateway.

Variable t_load : Z.
Variable JSON_parse : string -> option JsonValue.

(** [JwtService.verify]; [None] when it throws. *)
Variable jwt_verify : string -> option JwtPayload.

(** [ShareService.validateShareToken(projectId, token)], as the truthiness
    of its result; the service reads the store. *)
Variable validateShareToken : Store -> string -> string -> bool.

(** Identifier the store gives a newly created [editRequest] row. *)
Variable fresh_id : Store -> string.

(** [parseUserIdFromToken(token)]: [payload?.id || payload?.sub || null]. *)
Definition parseUserIdFromToken (token : option string) : option string :=
  match as_truthy token with
  | None => None
  | Some tok =>
      match jwt_verify tok with
      | Some payload =>
          match as_truthy (jwt_id payload) with
          | Some i => Some i
          | None => as_truthy (jwt_sub payload)
          end
      | None => None
      end
  end.

(** Lines 54-56: [getRoom(projectId)?.snapshot || await loadInitial(projectId)];
    a snapshot object is always truthy. *)
Definition current_snapshot (now : Z) (projectId : string) (w : World)
  : DiagramSnapshot * World :=
  match getRoom projectId w with
  | Some room => (snapshot room, w)
  | None => loadInitial t_load JSON_parse now projectId w
  end.

(** Lines 85-91: join the group, cache the connection data, send the
    snapshot and announce the presence. *)
Definition enter_group (client projectId : string) (userId : option string)
  (role : Role) (snap : DiagramSnapshot) (w : World) : World :=
  let w := socket_join client projectId w in
  let w :=
    with_clientData
      (<[client := {| cd_projectId := projectId; cd_userId := userId;
                      cd_role := role |}]> (clientData w)) w in
  let w := emit (ToClient client) (joined snap role) w in
  emit (ToRoom projectId) (presence userId (Some role) join) w.

(** [handleJoin(data, client)] *)
Definition handleJoin (now : Z) (client : string) (data : JoinPayload)
  (w : World) : World :=
  let projectId := jp_projectId data in
  let '(snap, w) := current_snapshot now projectId w in
  let userId := parseUserIdFromToken (jp_authToken data) in
  match as_truthy userId with
  | Some uid =>
      let '(p, st) :=
        Prisma.project_find_with_member projectId uid (store w) in
      let role :=
        match p with
        | Some (owner, isMember) =>
            if String.eqb owner uid then OWNER
            else if isMember then EDITOR else VIEWER
        | None => VIEWER
        end in
      enter_group client projectId userId role snap (with_store st w)
  | None =>
      match as_truthy (jp_shareToken data) with
      | Some tok =>
          if validateShareToken (store w) projectId tok
          then enter_group client projectId userId VIEWER snap w
          else emit (ToClient client) (joinDenied invalid_share_link) w
      | None => emit (ToClient client) (joinDenied unauthorized) w
      end
  end.

(** [handlePatch({ projectId, patch }, client)] *)
Definition handlePatch (client projectId : string) (patch : Patch)
  (w : World) : World :=
  match clientData w !! client with
  | None => w
  | Some d =>
      if negb (String.eqb (cd_projectId d) projectId) then w
      else
        match cd_role d with
        | EDITOR | OWNER =>
            emit (ToOthers projectId client) (remotePatch patch)
              (queuePatch projectId patch w)
        | VIEWER =>
            emit (ToClient client)
              (editDenied
                 (match as_truthy (cd_userId d) with
                  | Some _ => no_permission
                  | None => login_required
                  end)) w
        end
  end.

(** [client.data?.userId] when truthy. *)
Definition client_user (client : string) (w : World) : option string :=
  match clientData w !! client with
  | Some d => as_truthy (cd_userId d)
  | None => None
  end.

(** [requestEdit(data, client)] *)
Definition requestEdit (client : string) (data : RequestEditPayload)
  (w : World) : World :=
  let projectId := rq_projectId data in
  match client_user client w with
  | None => emit (ToClient client) (editDenied login_required) w
  | Some userId =>
      let '(member, st) := Prisma.member_find projectId userId (store w) in
      match member with
      | Some r =>
          let w := emit (ToClient client) (editGranted r) (with_store st w) in
          with_clientData
            (alter (fun d => {| cd_projectId := cd_projectId d;
                                cd_userId := cd_userId d;
                                cd_role := EDITOR |}) client (clientData w)) w
      | None =>
          let '(req, st) :=
            Prisma.request_put (fresh_id st) projectId userId
              (rq_message data) st in
          let '(owner, st) := Prisma.project_find projectId st in
          let w := with_store st w in
          let w :=
            match owner with
            | Some p =>
                if truthy_string (ownerId p)
                then emit (ToRoom (String.append "user:" (ownerId p)))
                       (editRequest projectId userId (er_id req) (er_message req)) w
                else w
            | None => w
            end in
          emit (ToClient client) requestQueued w
      end
  end.

(** [approve(data, client)], the handler of [approveEdit]. *)
Definition approve (client : string) (data : ApproveEditPayload)
  (w : World) : World :=
  let projectId := ap_projectId data in
  let userId := ap_userId data in
  let role := default "EDITOR"%string (ap_role data) in
  match client_user client w with
  | None => w
  | Some me =>
      let '(p, st) := Prisma.project_find projectId (store w) in
      match p with
      | None => with_store st w
      | Some proj =>
          if negb (String.eqb (ownerId proj) me) then with_store st w
          else
            let stored := if String.eqb role "EDITOR" then M_EDITOR else M_VIEWER in
            let st := Prisma.member_put projectId userId stored st in
            let st := Prisma.request_approve_pending projectId userId st in
            emit (ToRoom projectId) (memberUpdated userId role) (with_store st w)
      end
  end.

(** [handleConnection(client)], [token] being the handshake credential. *)
Definition handleConnection (client : string) (token : option string)
  (w : World) : World :=
  match as_truthy (parseUserIdFromToken token) with
  | Some userId => socket_join client (String.append "user:" userId) w
  | None => w
  end.

(** [handleDisconnect(client)] *)
Definition handleDisconnect (client : string) (w : World) : World :=
  match clientData w !! client with
  | Some d =>
      if truthy_string (cd_projectId d)
      then emit (ToRoom (cd_projectId d)) (presence (cd_userId d) None leave) w
      else w
  | None => w
  end.

(** Messages a connection sends, and their dispatch. *)
Inductive ClientMessage : Type :=
  | Msg_join (data : JoinPayload)
  | Msg_patch (projectId : string) (patch : Patch)
  | Msg_requestEdit (data : RequestEditPayload)
  | Msg_approveEdit (data : ApproveEditPayload).

Definition handle (now : Z) (client : string) (m : ClientMessage) (w : World)
  : World :=
  match m with
  | Msg_join data => handleJoin now client data w
  | Msg_patch projectId patch => handlePatch client projectId patch w
  | Msg_requestEdit data => requestEdit client data w
  | Msg_approveEdit data => approve client data w
  end.

(** A run of the gateway: messages with their arrival time and sender. *)
Fixpoint run (msgs : list (Z * string * ClientMessage)) (w : World) : World :=
  match msgs with
  | [] => w
  | (now, client, m) :: rest => run rest (handle now client m w)
  end.

End Gateway.

(** The role lines 61-71 of [handleJoin] give the authenticated user [uid],
    read off the store: owner, else member, else viewer. *)
Definition role_of (uid projectId : string) (st : Store) : Role :=
  match projects st !! projectId with
  | Some p =>
      if String.eqb (ownerId p) uid then OWNER
      else if bool_decide (is_Some (projectMembers st !! (projectId, uid)))
           then EDITOR else VIEWER
  | None => VIEWER
  end.

(** User ids cached on connections are null or non-empty. *)
Definition canonical_users (w : World) : Prop :=
  forall c d, clientData w !! c = Some d -> as_truthy (cd_userId d) = cd_userId d.

(* ===================================================================== *)
(** ** DiagramsService (diagrams.module.ts, lines 18-90) *)
(* ===================================================================== *)

Inductive HttpError : Type :=
  | NotFoundException
  | ForbiddenException.

(** [v ?? d]: [d] when [v] is undefined ([None]) or null. *)
Definition nullish_or (d : JsonValue) (v : option JsonValue) : JsonValue :=
  match v with
  | None | Some JNull => d
  | Some x => x
  end.

Module DiagramsService.

(** [assertProjectAccess(userId, projectId)] *)
Definition assertProjectAccess (userId projectId : string) (st : Store)
  : option HttpError * Store :=
  let '(p, st) := Prisma.project_find_with_member projectId userId st in
  match p with
  | None => (Some NotFoundException, st)
  | Some (owner, hasRow) =>
      let isMember := String.eqb owner userId || hasRow in
      if isMember then (None, st) else (Some ForbiddenException, st)
  end.

(** [getOrInit(projectId)] *)
Definition getOrInit (now : Z) (projectId : string) (st : Store)
  : JsonValue * Store :=
  let '(d, st) := Prisma.diagram_find projectId st in
  match d with
  | Some persisted => (persisted, st)
  | None =>
      let created :=
        JObject [ ("nodes"%string, JArray []);
                  ("edges"%string, JArray []);
                  ("updatedAt"%string, JString (Iso.toISOString now)) ] in
      (created, Prisma.diagram_insert projectId created st)
  end.

(** [getOrInitForUser(userId, projectId)], the service call of the
    controller's [GET projects/:projectId/diagram]. *)
Definition getOrInitForUser (now : Z) (userId projectId : string) (st : Store)
  : (HttpError + JsonValue) * Store :=
  match assertProjectAccess userId projectId st with
  | (Some e, st) => (inl e, st)
  | (None, st) =>
      let '(snap, st) := getOrInit now projectId st in (inr snap, st)
  end.

(** The body of [PUT]: [{ nodes, edges, updatedAt? }], as it arrives: the
    service does not check that [nodes] and [edges] are arrays.  A field is
    [None] when it is absent; [up_updatedAt] is [None] when null or absent. *)
Record UpsertPayload : Type := mkUpsert {
  up_nodes : option JsonValue;
  up_edges : option JsonValue;
  up_updatedAt : option string;
}.

(** [upsert(projectId, payload)]: [??] defaults, then the store upsert. *)
Definition upsert (now : Z) (projectId : string) (payload : UpsertPayload)
  (st : Store) : JsonValue * Store :=
  let snap :=
    JObject [ ("nodes"%string, nullish_or (JArray []) (up_nodes payload));
              ("edges"%string, nullish_or (JArray []) (up_edges payload));
              ("updatedAt"%string,
               JString (default (Iso.toISOString now) (up_updatedAt payload))) ] in
  Prisma.diagram_put projectId snap st.

(** [upsertForUser(userId, projectId, payload)] *)
Definition upsertForUser (now : Z) (userId projectId : string)
  (payload : UpsertPayload) (st : Store) : (HttpError + JsonValue) * Store :=
  match assertProjectAccess userId projectId st with
  | (Some e, st) => (inl e, st)
  | (None, st) =>
      let '(snap, st) := upsert now projectId payload st in (inr snap, st)
  end.

End DiagramsService.

(* ===================================================================== *)
(** ** Fixtures: one project, its owner, a member and an outsider *)
(* ===================================================================== *)

Module Fixture.

(** Token verifier: three valid tokens, everything else is rejected. *)
Definition verify (tok : string) : option JwtPayload :=
  if String.eqb tok "tok-alice" then Some (mkPayload (Some "alice") None)
  else if String.eqb tok "tok-bob" then Some (mkPayload None (Some "bob"))
  else if String.eqb tok "tok-carol" then Some (mkPayload (Some "carol") None)
  else None.

(** Share links: project [p1] has the single link [share-p1]. *)
Definition share (_ : Store) (projectId tok : string) : bool :=
  String.eqb projectId "p1" && String.eqb tok "share-p1".

Definition parse (s : string) : option JsonValue :=
  if String.eqb s "{}" then Some (JObject []) else None.

Definition fresh (_ : Store) : string := "req-1".

(** [alice] owns [p1], [carol] is a member, [bob] is neither; no diagram
    has been saved yet. *)
Definition store0 : Store :=
  {| projects := {[ "p1"%string := mkProject "alice" ]};
     projectMembers :=
       {[ ("p1"%string, "alice"%string) := M_OWNER;
          ("p1"%string, "carol"%string) := M_EDITOR ]};
     editRequests := ∅;
     diagrams := ∅;
     queryLog := [] |}.

(** A freshly started server: no room, no connection has joined. *)
Definition world0 : World :=
  {| rooms := ∅; store := store0; groups := ∅; clientData := ∅; outbox := [] |}.

(** The same store with a malformed [snapshot] column for [p1]. *)
Definition store_malformed : Store :=
  with_diagrams
    {[ "p1"%string := JObject [("edges"%string, JString "not-an-array")] ]}
    store0.

End Fixture.

(** The verdict of [assertProjectAccess], read off the store. *)
Definition access_verdict (userId projectId : string) (st : Store)
  : option HttpError :=
  match projects st !! projectId with
  | None => Some NotFoundException
  | Some p =>
      if String.eqb (ownerId p) userId
         || bool_decide (is_Some (projectMembers st !! (projectId, userId)))
      then None else Some ForbiddenException
  end.

(** The role [approve] stores for the role it is sent. *)
Definition stored_role (sent : option string) : MemberRole :=
  if String.eqb (default "EDITOR"%string sent) "EDITOR" then M_EDITOR else M_VIEWER.

(* ===================================================================== *)
(** ** Delivery of emits, and the backend as one transition system *)
(* ===================================================================== *)

(** Whether socket [c] is among the receivers of an emit to [t], with the
    group memberships of [w]. *)
Definition receives (c : string) (t : Target) (w : World) : bool :=
  match t with
  | ToClient c' => String.eqb c c'
  | ToRoom r => bool_decide ((c, r) ∈ groups w)
  | ToOthers r sender =>
      bool_decide ((c, r) ∈ groups w) && negb (String.eqb c sender)
  end.

(** A [PUT] body that has the declared type: [nodes] and [edges] arrays, or
    left out. *)
Definition typed_payload (p : DiagramsService.UpsertPayload) : bool :=
  match nullish_or (JArray []) (DiagramsService.up_nodes p),
        nullish_or (JArray []) (DiagramsService.up_edges p) with
  | JArray _, JArray _ => true
  | _, _ => false
  end.

(** Every room has a persisted diagram record. *)
Definition rooms_backed (w : World) : Prop :=
  forall projectId, is_Some (rooms w !! projectId) ->
                    is_Some (diagrams (store w) !! projectId).

(** Every persisted diagram has the snapshot shape. *)
Definition all_shaped (st : Store) : Prop :=
  forall projectId v, diagrams st !! projectId = Some v -> snapshot_shaped v = true.

(** How one diagram table comes from another: not at all, or by writing one
    record; [ok] says what is known of the value written. *)
Definition table_step (ok : JsonValue -> Prop)
  (before after : gmap string JsonValue) : Prop :=
  after = before \/ exists projectId v, after = <[projectId := v]> before /\ ok v.

Section System.

Variable t_load : Z.
Variable JSON_parse : string -> option JsonValue.
Variable jwt_verify : string -> option JwtPayload.
Variable validateShareToken : Store -> string -> string -> bool.
Variable fresh_id : Store -> string.

(** What the backend reacts to: a new connection with its handshake token,
    a message on a connection, the save timer of a room running out, a call
    of [ensureRoom], and the two REST calls on a project's diagram. *)
Inductive Event : Type :=
  | Connect (client : string) (token : option string)
  | Message (now : Z) (client : string) (m : ClientMessage)
  | TimerFired (now : Z) (projectId : string)
  | EnsureRoom (now : Z) (projectId : string)
  | RestGet (now : Z) (userId projectId : string)
  | RestPut (now : Z) (userId projectId : string)
      (payload : DiagramsService.UpsertPayload).

Definition step (e : Event) (w : World) : World :=
  match e with
  | Connect client token => handleConnection jwt_verify client token w
  | Message now client m =>
      handle t_load JSON_parse jwt_verify validateShareToken fresh_id
        now client m w
  | TimerFired now projectId =>
      match rooms w !! projectId with
      | Some room =>
          if saveArmed room then debouncedSave now projectId w else w
      | None => w
      end
  | EnsureRoom now projectId => (ensureRoom t_load JSON_parse now projectId w).2
  | RestGet now userId projectId =>
      with_store (DiagramsService.getOrInitForUser now userId projectId (store w)).2 w
  | RestPut now userId projectId payload =>
      with_store
        (DiagramsService.upsertForUser now userId projectId payload (store w)).2 w
  end.

Fixpoint steps (es : list Event) (w : World) : World :=
  match es with
  | [] => w
  | e :: rest => steps rest (step e w)
  end.

Definition typed_event (e : Event) : bool :=
  match e with
  | RestPut _ _ _ payload => typed_payload payload
  | _ => true
  end.

End System.

(* ===================================================================== *)
(** ** Further fixtures *)
(* ===================================================================== *)

Module Scenario.

(** [p1] as in [Fixture], and a second project [p2] owned by [dave] of which
    [bob] is a member stored as VIEWER. *)
Definition store2 : Store :=
  {| projects := {[ "p1"%string := mkProject "alice";
                    "p2"%string := mkProject "dave" ]};
     projectMembers :=
       {[ ("p1"%string, "alice"%string) := M_OWNER;
          ("p1"%string, "carol"%string) := M_EDITOR;
          ("p2"%string, "bob"%string) := M_VIEWER ]};
     editRequests := ∅;
     diagrams := ∅;
     queryLog := [] |}.

Definition world2 : World :=
  {| rooms := ∅; store := store2; groups := ∅; clientData := ∅; outbox := [] |}.

Definition join_as (now : Z) (client projectId tok : string) (w : World) : World :=
  handleJoin 0 Fixture.parse Fixture.verify Fixture.share now client
    (mkJoin projectId None (Some tok)) w.

End Scenario.
(* ===================================================================== *)
(** * Properties *)
(* ===================================================================== *)

(** ** Timestamps *)

Example toISOString_epoch :
  Iso.toISOString 0 = "1970-01-01T00:00:00.000Z"%string.
Proof. reflexivity. Qed.

Example toISOString_2023 :
  Iso.toISOString 1700000000123 = "2023-11-14T22:13:20.123Z"%string.
Proof. reflexivity. Qed.

Example toISOString_leap_day :
  Iso.toISOString 951782400000 = "2000-02-29T00:00:00.000Z"%string.
Proof. reflexivity. Qed.

Example toISOString_before_epoch :
  Iso.toISOString (-1) = "1969-12-31T23:59:59.999Z"%string.
Proof. reflexivity. Qed.


Lemma digit_is_digit (n : Z) : Iso.is_digit (Iso.digit n) = true.
Proof.
  unfold Iso.digit.
  assert (H : (Z.to_nat (n mod 10) < 10)%nat)
    by (pose proof (Z.mod_pos_bound n 10); lia).
  generalize dependent (Z.to_nat (n mod 10)). intros k H.
  do 10 (destruct k as [|k]; [reflexivity|]). lia.
Qed.

(** Every result of [toISOString] has the ISO-8601 shape. *)
Lemma toISOString_shape (ms : Z) : Iso.iso_shape (Iso.toISOString ms) = true.
Proof.
  unfold Iso.toISOString.
  destruct (Iso.civil_from_days (ms / Iso.msPerDay)) as [[y m] d].
  unfold Iso.year_str.
  destruct ((0 <=? y)%Z && (y <=? 9999)%Z)%bool; [|destruct (y <? 0)%Z];
    cbv -[Z.div Z.modulo Z.abs Iso.is_digit Iso.digit Iso.msPerDay];
    rewrite ?digit_is_digit; reflexivity.
Qed.

Lemma truthy_append_r (a b : string) :
  truthy_string b = true -> truthy_string (String.append a b) = true.
Proof. destruct a as [|c a]; simpl; auto. Qed.

(** [toISOString] never yields the empty string: its result is truthy. *)
Lemma toISOString_truthy (ms : Z) : truthy_string (Iso.toISOString ms) = true.
Proof.
  unfold Iso.toISOString.
  destruct (Iso.civil_from_days (ms / Iso.msPerDay)) as [[y m] d].
  cbn [String.concat].
  repeat (apply truthy_append_r).
  reflexivity.
Qed.

Lemma as_truthy_Some (o : option string) (s : string) :
  as_truthy o = Some s -> o = Some s /\ truthy_string s = true.
Proof.
  destruct o as [s'|]; simpl; [|discriminate].
  destruct (truthy_string s') eqn:E; [|discriminate].
  intros [= ->]. auto.
Qed.

Lemma as_truthy_idem (o : option string) : as_truthy (as_truthy o) = as_truthy o.
Proof.
  destruct o as [s|]; simpl; [|reflexivity].
  destruct (truthy_string s) eqn:E; simpl; [rewrite E|]; reflexivity.
Qed.

(** ** Snapshot normaliser *)

Section NormalizerFacts.

Variable t_load : Z.
Variable JSON_parse : string -> option JsonValue.

Lemma EMPTY_SNAPSHOT_truthy :
  truthy_string (updatedAt (EMPTY_SNAPSHOT t_load)) = true.
Proof. apply toISOString_truthy. Qed.

Lemma coerceSnapshot_truthy now obj :
  truthy_string (updatedAt (coerceSnapshot now obj)) = true.
Proof.
  unfold coerceSnapshot; cbn [updatedAt].
  destruct (get_prop "updatedAt" obj) as [[| | |s| |]|];
    try apply toISOString_truthy.
  destruct (truthy_string s) eqn:E; [exact E | apply toISOString_truthy].
Qed.

(** Whatever the input, [updatedAt] of the result is a non-empty string. *)
Lemma toSnapshot_truthy now value :
  truthy_string (updatedAt (toSnapshot t_load JSON_parse now value)) = true.
Proof.
  unfold toSnapshot.
  destruct value as [[| | |s| |obj]|];
    try apply EMPTY_SNAPSHOT_truthy; try apply coerceSnapshot_truthy.
  destruct (JSON_parse s) as [[| | | | |parsed]|];
    try apply EMPTY_SNAPSHOT_truthy. apply coerceSnapshot_truthy.
Qed.

(** [nodes] and [edges] of a result are sequences by typing; as a raw JSON
    value the result has the snapshot shape. *)
Lemma toSnapshot_shaped now value :
  snapshot_shaped (snapshot_json (toSnapshot t_load JSON_parse now value)) = true.
Proof. reflexivity. Qed.

(** A snapshot with a non-empty [updatedAt] is a fixed point, at any time. *)
Lemma toSnapshot_fixed now (s : DiagramSnapshot) :
  truthy_string (updatedAt s) = true ->
  toSnapshot t_load JSON_parse now (Some (snapshot_json s)) = s.
Proof.
  intros H. destruct s as [ns es u]. cbn in *.
  unfold coerceSnapshot. cbn. rewrite H. reflexivity.
Qed.

(** The default branch: the module constant, whatever the clock says. *)
Lemma toSnapshot_null now :
  toSnapshot t_load JSON_parse now (Some JNull) = EMPTY_SNAPSHOT t_load
  /\ toSnapshot t_load JSON_parse now None = EMPTY_SNAPSHOT t_load.
Proof. split; reflexivity. Qed.

End NormalizerFacts.

(** What does hold of the default: empty sequences and a well-formed stamp,
    that of the instant the module was loaded. *)
Lemma toSnapshot_null_default
  (t_load : Z) (JSON_parse : string -> option JsonValue) (now : Z) :
  let s := toSnapshot t_load JSON_parse now (Some JNull) in
  nodes s = [] /\ edges s = []
  /\ updatedAt s = Iso.toISOString t_load
  /\ Iso.iso_shape (updatedAt s) = true.
Proof. repeat split. apply toISOString_shape. Qed.

(** The stamp given to an object without [updatedAt] follows the clock. *)
Example toSnapshot_follows_the_clock :
  updatedAt (toSnapshot 0 Fixture.parse 1000 (Some (JObject [])))
  = "1970-01-01T00:00:01.000Z"%string
  /\ updatedAt (toSnapshot 0 Fixture.parse 2000 (Some (JObject [])))
     = "1970-01-01T00:00:02.000Z"%string.
Proof. split; reflexivity. Qed.

(** C4 (code at the failing input).  The module is loaded at clock reading 0
    and [toSnapshot(null)] is called one second later: [nodes] and [edges]
    are empty, but [updatedAt] is the load-time stamp, not the stamp of the
    call. *)
Theorem C4_null_snapshot_carries_load_time :
  let s := toSnapshot 0 (fun _ => None) 1000 (Some JNull) in
  nodes s = [] /\ edges s = []
  /\ updatedAt s = "1970-01-01T00:00:00.000Z"%string
  /\ Iso.toISOString 1000 = "1970-01-01T00:00:01.000Z"%string
  /\ updatedAt s <> Iso.toISOString 1000.
Proof. repeat split; try reflexivity. intros H; vm_compute in H; discriminate. Qed.

(** C5.  The normaliser is idempotent: normalising a normalised snapshot, at
    any later clock reading, gives that snapshot back, for every input
    (null, undefined, strings whatever [JSON.parse] makes of them, objects,
    scalars and arrays). *)
Theorem C5_toSnapshot_idempotent
  (t_load : Z) (JSON_parse : string -> option JsonValue)
  (now now' : Z) (x : option JsonValue) :
  toSnapshot t_load JSON_parse now'
    (Some (snapshot_json (toSnapshot t_load JSON_parse now x)))
  = toSnapshot t_load JSON_parse now x.
Proof. apply toSnapshot_fixed, toSnapshot_truthy. Qed.

(** The inputs the specification lists, at a parser that reads ["{}"] as the
    empty object. *)
Example toSnapshot_listed_inputs :
  let parse := fun s => if String.eqb s "{}" then Some (JObject []) else None in
  let T := Iso.toISOString in
  toSnapshot 7 parse 9 (Some JNull) = mkSnapshot [] [] (T 7)
  /\ toSnapshot 7 parse 9 (Some (JString "{}")) = mkSnapshot [] [] (T 9)
  /\ toSnapshot 7 parse 9 (Some (JString "{")) = mkSnapshot [] [] (T 7)
  /\ toSnapshot 7 parse 9
       (Some (JObject [("nodes"%string, JArray [JNumber 1; JNumber 2])]))
     = mkSnapshot [JNumber 1; JNumber 2] [] (T 9)
  /\ toSnapshot 7 parse 9
       (Some (JObject [("edges"%string, JString "not-an-array")]))
     = mkSnapshot [] [] (T 9)
  /\ toSnapshot 7 parse 9
       (Some (JObject [("updatedAt"%string, JString EmptyString)]))
     = mkSnapshot [] [] (T 9)
  /\ toSnapshot 7 parse 9 (Some (JArray [JObject []])) = mkSnapshot [] [] (T 7).
Proof. repeat split. Qed.

(** ** Room registry *)

(** [queuePatch] without a room is a no-op. *)
Lemma queuePatch_absent projectId patch w :
  getRoom projectId w = None -> queuePatch projectId patch w = w.
Proof. unfold queuePatch, getRoom. intros ->. reflexivity. Qed.

(** [queuePatch] with a room appends the patch and arms the save timer. *)
Lemma queuePatch_present projectId patch w room :
  getRoom projectId w = Some room ->
  getRoom projectId (queuePatch projectId patch w)
  = Some {| snapshot := snapshot room;
            pendingPatches := pendingPatches room ++ [patch];
            saveArmed := true |}.
Proof.
  unfold queuePatch, getRoom. intros ->. cbn. apply lookup_insert_eq.
Qed.

(** [queuePatch] never creates or removes a room, and touches nothing else. *)
Lemma queuePatch_frame projectId patch w :
  let w' := queuePatch projectId patch w in
  dom (rooms w') = dom (rooms w) /\ store w' = store w
  /\ groups w' = groups w /\ clientData w' = clientData w
  /\ outbox w' = outbox w.
Proof.
  unfold queuePatch.
  destruct (rooms w !! projectId) as [room|] eqn:E; cbn; repeat split.
  rewrite dom_insert_L. apply subseteq_union_1_L, singleton_subseteq_l.
  exact (elem_of_dom_2 _ _ _ E).
Qed.

Section RealtimeFacts.

Variable t_load : Z.
Variable JSON_parse : string -> option JsonValue.

(** [loadInitial] touches the store only. *)
Lemma loadInitial_frame now projectId w :
  let w' := (loadInitial t_load JSON_parse now projectId w).2 in
  rooms w' = rooms w /\ groups w' = groups w
  /\ clientData w' = clientData w /\ outbox w' = outbox w.
Proof.
  unfold loadInitial. cbn.
  destruct (diagrams (store w) !! projectId); cbn; auto.
Qed.


(** [loadInitial] reads the diagram record once; a missing record is created
    from the module constant, an existing one is normalised and left as it
    is. *)
Lemma loadInitial_store now projectId w :
  let '(snap, w') := loadInitial t_load JSON_parse now projectId w in
  match diagrams (store w) !! projectId with
  | None =>
      snap = EMPTY_SNAPSHOT t_load
      /\ diagrams (store w') = <[projectId := snapshot_json snap]> (diagrams (store w))
      /\ queryLog (store w')
         = diagram_create projectId :: diagram_findUnique projectId
             :: queryLog (store w)
  | Some persisted =>
      snap = toSnapshot t_load JSON_parse now (Some persisted)
      /\ diagrams (store w') = diagrams (store w)
      /\ queryLog (store w') = diagram_findUnique projectId :: queryLog (store w)
  end.
Proof.
  unfold loadInitial. cbn.
  destruct (diagrams (store w) !! projectId); cbn; auto.
Qed.

(** A first [ensureRoom] registers the room it returns. *)
Lemma ensureRoom_registers now projectId w :
  let '(room, w') := ensureRoom t_load JSON_parse now projectId w in
  getRoom projectId w' = Some room.
Proof.
  unfold ensureRoom, getRoom.
  destruct (rooms w !! projectId) as [room|] eqn:E; [exact E|].
  destruct (loadInitial t_load JSON_parse now projectId w) as [snap w1].
  cbn. apply lookup_insert_eq.
Qed.

(** With the room present, [ensureRoom] is a lookup: same room, same world. *)
Lemma ensureRoom_hot now projectId w room :
  getRoom projectId w = Some room ->
  ensureRoom t_load JSON_parse now projectId w = (room, w).
Proof. unfold ensureRoom, getRoom. intros ->. reflexivity. Qed.

End RealtimeFacts.

(** C8.  [ensureRoom] is idempotent: a second call in sequence returns the
    room the first call returned and leaves the world as the first call left
    it.  The room is still the entry registered under [projectId] (same
    identity, same snapshot), and the store, with its query log, is
    untouched: no second read, no reload. *)
Theorem C8_ensureRoom_idempotent
  (t_load : Z) (JSON_parse : string -> option JsonValue)
  (now now' : Z) (projectId : string) (w : World) :
  let first := ensureRoom t_load JSON_parse now projectId w in
  let second := ensureRoom t_load JSON_parse now' projectId first.2 in
  second.1 = first.1
  /\ snapshot second.1 = snapshot first.1
  /\ second.2 = first.2
  /\ queryLog (store second.2) = queryLog (store first.2)
  /\ getRoom projectId second.2 = Some first.1.
Proof.
  cbv zeta.
  pose proof (ensureRoom_registers t_load JSON_parse now projectId w) as Hreg.
  destruct (ensureRoom t_load JSON_parse now projectId w) as [room w1].
  cbn [fst snd].
  rewrite (ensureRoom_hot t_load JSON_parse now' projectId w1 room Hreg).
  cbn [fst snd]. auto.
Qed.

(** The first call on a cold project does read the store, once. *)
Example ensureRoom_cold_then_hot :
  let first := ensureRoom 0 Fixture.parse 10 "p1" Fixture.world0 in
  let second := ensureRoom 0 Fixture.parse 20 "p1" first.2 in
  queryLog (store first.2) = [diagram_create "p1"; diagram_findUnique "p1"]
  /\ queryLog (store second.2) = [diagram_create "p1"; diagram_findUnique "p1"]
  /\ second.1 = mkRoom (EMPTY_SNAPSHOT 0) [] false.
Proof. repeat split. Qed.

(** ** Connection gateway *)

(** Proof step shared by the lemmas on [handleJoin]: name the snapshot and
    the world that resolving it yields, and keep what [frame] says of them. *)
Ltac open_join frame :=
  unfold handleJoin;
  match goal with
  | |- context [current_snapshot ?t ?p ?now ?pid ?w] =>
      let F := fresh "Frame" in
      first [ pose proof (frame t p now pid w) as F
            | pose proof (frame now pid w) as F ];
      destruct (current_snapshot t p now pid w) as [?snap ?w1];
      cbn [fst snd] in F
  end.

Section GatewayFacts.

Variable t_load : Z.
Variable JSON_parse : string -> option JsonValue.
Variable jwt_verify : string -> option JwtPayload.
Variable validateShareToken : Store -> string -> string -> bool.
Variable fresh_id : Store -> string.

(** A parsed user id is never the empty string: it is truthy or null. *)
Lemma parseUserIdFromToken_truthy token :
  as_truthy (parseUserIdFromToken jwt_verify token)
  = parseUserIdFromToken jwt_verify token.
Proof.
  unfold parseUserIdFromToken.
  destruct (as_truthy token) as [tok|]; [|reflexivity].
  destruct (jwt_verify tok) as [payload|]; [|reflexivity].
  destruct (as_truthy (jwt_id payload)) as [i|] eqn:E.
  - apply as_truthy_Some in E as [_ E]. cbn. rewrite E. reflexivity.
  - apply as_truthy_idem.
Qed.

(** Resolving the snapshot of a join touches the store's diagram table and
    query log at most: never the room registry, the socket layer, projects
    or memberships. *)
Lemma current_snapshot_frame now projectId w :
  let w' := (current_snapshot t_load JSON_parse now projectId w).2 in
  rooms w' = rooms w /\ groups w' = groups w
  /\ clientData w' = clientData w /\ outbox w' = outbox w
  /\ projects (store w') = projects (store w)
  /\ projectMembers (store w') = projectMembers (store w)
  /\ editRequests (store w') = editRequests (store w).
Proof.
  unfold current_snapshot, getRoom.
  destruct (rooms w !! projectId); cbn; [repeat split|].
  unfold loadInitial; cbn.
  destruct (diagrams (store w) !! projectId); cbn; repeat split.
Qed.

(** [handleJoin] never writes the room registry. *)
Lemma handleJoin_rooms now client data w :
  rooms (handleJoin t_load JSON_parse jwt_verify validateShareToken
           now client data w) = rooms w.
Proof.
  open_join current_snapshot_frame. destruct Frame as (Hr & _).
  destruct (as_truthy (parseUserIdFromToken jwt_verify (jp_authToken data))).
  - cbn. exact Hr.
  - destruct (as_truthy (jp_shareToken data)) as [tok|]; [|exact Hr].
    destruct (validateShareToken (store w1) (jp_projectId data) tok); exact Hr.
Qed.

(** A join either leaves the connection data alone (denied) or caches, for
    the joining socket only, the project, the parsed user id and a role. *)
Lemma handleJoin_clientData now client data w :
  let w' := handleJoin t_load JSON_parse jwt_verify validateShareToken
              now client data w in
  clientData w' = clientData w
  \/ exists role,
       clientData w'
       = <[client := mkClientData (jp_projectId data)
                       (parseUserIdFromToken jwt_verify (jp_authToken data)) role]>
           (clientData w).
Proof.
  cbv zeta. open_join current_snapshot_frame. destruct Frame as (_ & _ & Hc & _).
  destruct (as_truthy (parseUserIdFromToken jwt_verify (jp_authToken data))).
  - right. cbn. rewrite Hc. eexists. reflexivity.
  - destruct (as_truthy (jp_shareToken data)) as [tok|]; [|left; exact Hc].
    destruct (validateShareToken (store w1) (jp_projectId data) tok).
    + right. cbn. rewrite Hc. eexists. reflexivity.
    + left. exact Hc.
Qed.

(** No handler of the gateway creates or removes a room. *)
Lemma handle_rooms_dom now client m w :
  dom (rooms (handle t_load JSON_parse jwt_verify validateShareToken fresh_id
                now client m w)) = dom (rooms w).
Proof.
  destruct m as [data|projectId patch|data|data]; cbn [handle].
  - rewrite handleJoin_rooms. reflexivity.
  - unfold handlePatch.
    destruct (clientData w !! client) as [d|]; [|reflexivity].
    destruct (negb _); [reflexivity|].
    destruct (cd_role d); cbn; try reflexivity;
      apply (queuePatch_frame projectId patch w).
  - unfold requestEdit.
    destruct (client_user client w) as [userId|]; [|reflexivity].
    cbn. destruct (projectMembers (store w) !! _); [reflexivity|].
    cbn. destruct (projects (store w) !! _) as [p|]; [|reflexivity].
    destruct (truthy_string (ownerId p)); reflexivity.
  - unfold approve.
    destruct (client_user client w) as [me|]; [|reflexivity].
    cbn. destruct (projects (store w) !! _) as [p|]; [|reflexivity].
    destruct (negb _); reflexivity.
Qed.

Lemma run_rooms_dom msgs w :
  dom (rooms (run t_load JSON_parse jwt_verify validateShareToken fresh_id
                msgs w)) = dom (rooms w).
Proof.
  revert w. induction msgs as [|[[now client] m] rest IH]; intros w; cbn [run].
  - reflexivity.
  - rewrite IH. apply handle_rooms_dom.
Qed.

(** Started without rooms, the gateway never has one, whatever it receives:
    nothing on the message path calls [ensureRoom]. *)
Lemma run_never_opens_a_room msgs w projectId :
  rooms w = ∅ ->
  getRoom projectId
    (run t_load JSON_parse jwt_verify validateShareToken fresh_id msgs w) = None.
Proof.
  intros H. unfold getRoom. apply not_elem_of_dom.
  rewrite run_rooms_dom, H, dom_empty_L. apply not_elem_of_empty.
Qed.

End GatewayFacts.

(** *** Join *)

(** What a join emits and caches once the role is settled. *)
Lemma enter_group_effects client projectId userId role snap w :
  let w' := enter_group client projectId userId role snap w in
  outbox w'
  = (ToRoom projectId, presence userId (Some role) join)
      :: (ToClient client, joined snap role) :: outbox w
  /\ (client, projectId) ∈ groups w'
  /\ clientData w' !! client = Some (mkClientData projectId userId role)
  /\ rooms w' = rooms w /\ store w' = store w.
Proof.
  unfold enter_group; cbn. repeat split.
  - apply elem_of_union_l, elem_of_singleton. reflexivity.
  - apply lookup_insert_eq.
Qed.

(** An unauthenticated join without a share token is denied as
    [unauthorized], and the connection stays out of every group. *)
Lemma handleJoin_unauthorized
  (t_load : Z) (JSON_parse : string -> option JsonValue)
  (jwt_verify : string -> option JwtPayload)
  (validateShareToken : Store -> string -> string -> bool)
  (now : Z) (client : string) (data : JoinPayload) (w : World) :
  parseUserIdFromToken jwt_verify (jp_authToken data) = None ->
  as_truthy (jp_shareToken data) = None ->
  let w' := handleJoin t_load JSON_parse jwt_verify validateShareToken
              now client data w in
  outbox w' = (ToClient client, joinDenied unauthorized) :: outbox w
  /\ groups w' = groups w /\ clientData w' = clientData w.
Proof.
  intros Hu Hs. open_join current_snapshot_frame.
  destruct Frame as (_ & Hg & Hc & Ho & _).
  rewrite Hu, Hs. cbn. rewrite Ho. auto.
Qed.

(** An unauthenticated join with a share token the validator rejects is
    denied as [invalid_share_link]. *)
Lemma handleJoin_invalid_share_link
  (t_load : Z) (JSON_parse : string -> option JsonValue)
  (jwt_verify : string -> option JwtPayload)
  (validateShareToken : Store -> string -> string -> bool)
  (now : Z) (client : string) (data : JoinPayload) (w : World) (tok : string) :
  parseUserIdFromToken jwt_verify (jp_authToken data) = None ->
  as_truthy (jp_shareToken data) = Some tok ->
  validateShareToken
    (store (current_snapshot t_load JSON_parse now (jp_projectId data) w).2)
    (jp_projectId data) tok = false ->
  let w' := handleJoin t_load JSON_parse jwt_verify validateShareToken
              now client data w in
  outbox w' = (ToClient client, joinDenied invalid_share_link) :: outbox w
  /\ groups w' = groups w /\ clientData w' = clientData w.
Proof.
  intros Hu Hs Hv. cbv zeta. open_join current_snapshot_frame.
  destruct Frame as (_ & Hg & Hc & Ho & _). cbn [snd] in Hv.
  rewrite Hu, Hs. cbn. rewrite Hv. cbn. rewrite Ho. auto.
Qed.

(** Every authenticated join succeeds, with [role_of] as its role. *)
Lemma handleJoin_authenticated
  (t_load : Z) (JSON_parse : string -> option JsonValue)
  (jwt_verify : string -> option JwtPayload)
  (validateShareToken : Store -> string -> string -> bool)
  (now : Z) (client : string) (data : JoinPayload) (w : World) (uid : string) :
  parseUserIdFromToken jwt_verify (jp_authToken data) = Some uid ->
  let projectId := jp_projectId data in
  let snap := (current_snapshot t_load JSON_parse now projectId w).1 in
  let role := role_of uid projectId (store w) in
  let w' := handleJoin t_load JSON_parse jwt_verify validateShareToken
              now client data w in
  outbox w'
  = (ToRoom projectId, presence (Some uid) (Some role) join)
      :: (ToClient client, joined snap role) :: outbox w
  /\ (client, projectId) ∈ groups w'
  /\ clientData w' !! client = Some (mkClientData projectId (Some uid) role).
Proof.
  intros Hu. cbv zeta. open_join current_snapshot_frame.
  destruct Frame as (_ & _ & _ & Ho & Hp & Hm & _).
  rewrite parseUserIdFromToken_truthy, Hu.
  unfold Prisma.project_find_with_member, role_of. rewrite Hp, Hm.
  destruct (projects (store w) !! jp_projectId data) as [p|];
    (match goal with |- context [enter_group ?c ?pid ?u ?r ?s ?w0] =>
       pose proof (enter_group_effects c pid u r s w0) as (E1 & E2 & E3 & _)
     end; cbn [outbox with_store] in E1; rewrite Ho in E1; auto).
Qed.

(** C1 (code at the failing input).  [bob] holds a valid token, is neither
    the owner nor a member of [p1] and presents no share token.  The REST
    gate refuses him the diagram of [p1] with [ForbiddenException], and the
    same join without his token is answered [joinDenied] [unauthorized]; yet
    his join is not denied: the handler emits [joined] with the snapshot and
    role VIEWER and puts the connection in the group of [p1]. *)
Theorem C1_outsider_join_is_accepted :
  let data := mkJoin "p1" None (Some "tok-bob"%string) in
  let w' := handleJoin 0 Fixture.parse Fixture.verify Fixture.share
              5 "s1" data Fixture.world0 in
  parseUserIdFromToken Fixture.verify (jp_authToken data) = Some "bob"%string
  /\ projects (store Fixture.world0) !! "p1"%string = Some (mkProject "alice")
  /\ projectMembers (store Fixture.world0) !! ("p1"%string, "bob"%string) = None
  /\ jp_shareToken data = None
  /\ (DiagramsService.getOrInitForUser 5 "bob" "p1" (store Fixture.world0)).1
     = inl ForbiddenException
  /\ outbox (handleJoin 0 Fixture.parse Fixture.verify Fixture.share
               5 "s1" (mkJoin "p1" None None) Fixture.world0)
     = [ (ToClient "s1", joinDenied unauthorized) ]
  /\ outbox w'
     = [ (ToRoom "p1", presence (Some "bob"%string) (Some VIEWER) join);
         (ToClient "s1", joined (EMPTY_SNAPSHOT 0) VIEWER) ]
  /\ ("s1"%string, "p1"%string) ∈ groups w'
  /\ ~ ((exists reason, (ToClient "s1", joinDenied reason) ∈ outbox w')
        /\ ("s1"%string, "p1"%string) ∉ groups w').
Proof.
  cbv zeta.
  assert (G : ("s1"%string, "p1"%string)
              ∈ groups (handleJoin 0 Fixture.parse Fixture.verify Fixture.share
                          5 "s1" (mkJoin "p1" None (Some "tok-bob"%string))
                          Fixture.world0)).
  { exact (proj1 (proj2 (handleJoin_authenticated 0 Fixture.parse Fixture.verify
             Fixture.share 5 "s1" (mkJoin "p1" None (Some "tok-bob"%string))
             Fixture.world0 "bob" eq_refl))). }
  repeat split; try (vm_compute; reflexivity); try exact G.
  intros [_ N]. exact (N G).
Qed.

(** What [handleJoin] does with every such join: a token that verifies to a
    user who is neither the owner nor a member of the project gets [joined]
    with the snapshot and role VIEWER; the connection is put in the
    project's group and caches [{projectId, userId, VIEWER}], and no
    [joinDenied] is emitted. *)
Lemma outsider_joins_as_viewer
  (t_load : Z) (JSON_parse : string -> option JsonValue)
  (jwt_verify : string -> option JwtPayload)
  (validateShareToken : Store -> string -> string -> bool)
  (now : Z) (client : string) (data : JoinPayload) (w : World)
  (uid : string) (p : Project) :
  parseUserIdFromToken jwt_verify (jp_authToken data) = Some uid ->
  projects (store w) !! jp_projectId data = Some p ->
  ownerId p <> uid ->
  projectMembers (store w) !! (jp_projectId data, uid) = None ->
  let projectId := jp_projectId data in
  let snap := (current_snapshot t_load JSON_parse now projectId w).1 in
  let w' := handleJoin t_load JSON_parse jwt_verify validateShareToken
              now client data w in
  outbox w'
  = (ToRoom projectId, presence (Some uid) (Some VIEWER) join)
      :: (ToClient client, joined snap VIEWER) :: outbox w
  /\ (client, projectId) ∈ groups w'
  /\ clientData w' !! client = Some (mkClientData projectId (Some uid) VIEWER)
  /\ (forall t reason,
        (t, joinDenied reason) ∈ outbox w' -> (t, joinDenied reason) ∈ outbox w).
Proof.
  intros Hu Hp Hown Hmem. cbv zeta.
  pose proof (handleJoin_authenticated t_load JSON_parse jwt_verify
                validateShareToken now client data w uid Hu) as H.
  cbv zeta in H.
  assert (R : role_of uid (jp_projectId data) (store w) = VIEWER).
  { unfold role_of. rewrite Hp.
    apply String.eqb_neq in Hown. rewrite Hown, Hmem. rewrite bool_decide_eq_false_2; [reflexivity|].
    intros [? ?]; discriminate. }
  rewrite R in H. destruct H as (Ho & Hg & Hc). repeat split; auto.
  intros t reason. rewrite Ho. intros Hin.
  apply elem_of_cons in Hin as [Hin|Hin]; [discriminate|].
  apply elem_of_cons in Hin as [Hin|Hin]; [discriminate|exact Hin].
Qed.

Lemma outsider_joins_as_viewer_at_fixture :
  let w' := handleJoin 0 Fixture.parse Fixture.verify Fixture.share 5 "s1"
              (mkJoin "p1" None (Some "tok-bob"%string)) Fixture.world0 in
  outbox w'
  = [ (ToRoom "p1", presence (Some "bob"%string) (Some VIEWER) join);
      (ToClient "s1", joined (EMPTY_SNAPSHOT 0) VIEWER) ].
Proof.
  refine (proj1 (outsider_joins_as_viewer 0 Fixture.parse Fixture.verify
            Fixture.share 5 "s1" (mkJoin "p1" None (Some "tok-bob"%string))
            Fixture.world0 "bob" (mkProject "alice") _ _ _ _)).
  - reflexivity.
  - reflexivity.
  - discriminate.
  - reflexivity.
Defined.

(** C10.  Once the token verifies to a user id, the join does not depend on
    the share token, nor on the share-link validator (which is therefore not
    consulted): the resulting world (role cached, events emitted, group
    joined, store) is the same for all of them. *)
Theorem C10_share_token_irrelevant_when_authenticated
  (t_load : Z) (JSON_parse : string -> option JsonValue)
  (jwt_verify : string -> option JwtPayload)
  (validate validate' : Store -> string -> string -> bool)
  (now : Z) (client projectId : string) (authToken : option string)
  (shareToken shareToken' : option string) (w : World) :
  is_Some (parseUserIdFromToken jwt_verify authToken) ->
  handleJoin t_load JSON_parse jwt_verify validate now client
    (mkJoin projectId shareToken authToken) w
  = handleJoin t_load JSON_parse jwt_verify validate' now client
      (mkJoin projectId shareToken' authToken) w.
Proof.
  intros [uid Hu]. unfold handleJoin. cbn [jp_projectId jp_authToken].
  destruct (current_snapshot t_load JSON_parse now projectId w) as [snap w1].
  rewrite parseUserIdFromToken_truthy, Hu. reflexivity.
Qed.

Lemma C10_share_token_irrelevant_when_authenticated_witness :
  handleJoin 0 Fixture.parse Fixture.verify Fixture.share 5 "s1"
    (mkJoin "p1" None (Some "tok-carol"%string)) Fixture.world0
  = handleJoin 0 Fixture.parse Fixture.verify (fun _ _ _ => false) 5 "s1"
      (mkJoin "p1" (Some "share-p1"%string) (Some "tok-carol"%string))
      Fixture.world0.
Proof.
  apply C10_share_token_irrelevant_when_authenticated.
  vm_compute. eexists. reflexivity.
Defined.

(** The fixtures of the specification's join table. *)
Example join_role_table :
  let go := fun share auth =>
    outbox (handleJoin 0 Fixture.parse Fixture.verify Fixture.share 5 "s1"
              (mkJoin "p1" share auth) Fixture.world0) in
  go None (Some "tok-alice"%string)
    = [ (ToRoom "p1", presence (Some "alice"%string) (Some OWNER) join);
        (ToClient "s1", joined (EMPTY_SNAPSHOT 0) OWNER) ]
  /\ go None (Some "tok-carol"%string)
    = [ (ToRoom "p1", presence (Some "carol"%string) (Some EDITOR) join);
        (ToClient "s1", joined (EMPTY_SNAPSHOT 0) EDITOR) ]
  /\ go (Some "share-p1"%string) None
    = [ (ToRoom "p1", presence None (Some VIEWER) join);
        (ToClient "s1", joined (EMPTY_SNAPSHOT 0) VIEWER) ]
  /\ go (Some "stale"%string) None
    = [ (ToClient "s1", joinDenied invalid_share_link) ]
  /\ go None None = [ (ToClient "s1", joinDenied unauthorized) ]
  /\ go None (Some "forged"%string) = [ (ToClient "s1", joinDenied unauthorized) ].
Proof. repeat split; vm_compute; reflexivity. Qed.

(** C2 (code at the failing input).  On a freshly started server the owner
    joins [p1] and is sent [joined]; no room for [p1] is registered by the
    join, so the patch that follows is relayed to the peers while
    [queuePatch] does nothing: nothing is queued and no save is armed. *)
Theorem C2_join_registers_no_room :
  let w1 := handleJoin 0 Fixture.parse Fixture.verify Fixture.share 5 "s1"
              (mkJoin "p1" None (Some "tok-alice"%string)) Fixture.world0 in
  let p := nodeMoved "n1" 10 20 in
  let w2 := handlePatch "s1" "p1" p w1 in
  outbox w1
  = [ (ToRoom "p1", presence (Some "alice"%string) (Some OWNER) join);
      (ToClient "s1", joined (EMPTY_SNAPSHOT 0) OWNER) ]
  /\ getRoom "p1" w1 = None
  /\ queuePatch "p1" p w1 = w1
  /\ outbox w2 = (ToOthers "p1" "s1", remotePatch p) :: outbox w1
  /\ rooms w2 = ∅.
Proof. repeat split; vm_compute; reflexivity. Qed.

(** *** Patch relay *)

(** C6.  A patch from a connection joined to [projectId] as VIEWER is
    refused: the only emit is [editDenied] to the sender, with reason
    [no_permission] when the connection has a user id and [login_required]
    when it has none; no [remotePatch] goes out and the room registry (patch
    queues, save timers) is untouched, as is everything else. *)
Theorem C6_viewer_patch_denied
  (client projectId : string) (patch : Patch) (w : World) (d : ClientData) :
  clientData w !! client = Some d ->
  cd_projectId d = projectId ->
  cd_role d = VIEWER ->
  let w' := handlePatch client projectId patch w in
  outbox w'
  = (ToClient client,
     editDenied (match as_truthy (cd_userId d) with
                 | Some _ => no_permission
                 | None => login_required
                 end)) :: outbox w
  /\ (forall u, cd_userId d = Some u -> truthy_string u = true ->
        outbox w' = (ToClient client, editDenied no_permission) :: outbox w)
  /\ (cd_userId d = None ->
        outbox w' = (ToClient client, editDenied login_required) :: outbox w)
  /\ (forall t, (t, remotePatch patch) ∈ outbox w' -> (t, remotePatch patch) ∈ outbox w)
  /\ rooms w' = rooms w /\ store w' = store w
  /\ groups w' = groups w /\ clientData w' = clientData w.
Proof.
  intros Hd Hp Hr. cbv zeta. unfold handlePatch.
  rewrite Hd, Hp, String.eqb_refl, Hr. cbn. repeat split.
  - intros u -> Hu. cbn. rewrite Hu. reflexivity.
  - intros ->. reflexivity.
  - intros t Hin.
    apply elem_of_cons in Hin as [Hin|Hin]; [discriminate|exact Hin].
Qed.

(** Every handler keeps the cached user ids null or non-empty, so "has a
    user id" and "has a truthy user id" coincide on every connection. *)
Lemma handle_canonical_users
  (t_load : Z) (JSON_parse : string -> option JsonValue)
  (jwt_verify : string -> option JwtPayload)
  (validateShareToken : Store -> string -> string -> bool)
  (fresh_id : Store -> string)
  (now : Z) (client : string) (m : ClientMessage) (w : World) :
  canonical_users w ->
  canonical_users (handle t_load JSON_parse jwt_verify validateShareToken
                     fresh_id now client m w).
Proof.
  intros Hw c d. destruct m as [data|projectId patch|data|data]; cbn [handle].
  - destruct (handleJoin_clientData t_load JSON_parse jwt_verify
                validateShareToken now client data w) as [->|[role ->]];
      [apply Hw|].
    rewrite lookup_insert. case_decide; [|apply Hw].
    intros [= <-]. apply parseUserIdFromToken_truthy.
  - unfold handlePatch.
    destruct (clientData w !! client) as [d0|]; [|apply Hw].
    destruct (negb _); [apply Hw|].
    destruct (cd_role d0); cbn; try apply Hw;
      rewrite (proj1 (proj2 (proj2 (proj2 (queuePatch_frame projectId patch w)))));
      apply Hw.
  - unfold requestEdit.
    destruct (client_user client w) as [userId|]; [|apply Hw].
    cbn. destruct (projectMembers (store w) !! _).
    + cbn. rewrite lookup_alter. case_decide; [subst c|apply Hw].
      destruct (clientData w !! client) as [d0|] eqn:E; cbn; [|discriminate].
      intros [= <-]. exact (Hw client d0 E).
    + cbn. destruct (projects (store w) !! _) as [p|]; [|apply Hw].
      destruct (truthy_string (ownerId p)); apply Hw.
  - unfold approve.
    destruct (client_user client w) as [me|]; [|apply Hw].
    cbn. destruct (projects (store w) !! _) as [p|]; [|apply Hw].
    destruct (negb _); apply Hw.
Qed.

(** Hence on every world a run reaches from a server without connections. *)
Lemma run_canonical_users
  (t_load : Z) (JSON_parse : string -> option JsonValue)
  (jwt_verify : string -> option JwtPayload)
  (validateShareToken : Store -> string -> string -> bool)
  (fresh_id : Store -> string)
  (msgs : list (Z * string * ClientMessage)) (w : World) :
  canonical_users w ->
  canonical_users (run t_load JSON_parse jwt_verify validateShareToken
                     fresh_id msgs w).
Proof.
  revert w. induction msgs as [|[[now client] m] rest IH]; intros w Hw;
    cbn [run]; [exact Hw|].
  apply IH, handle_canonical_users, Hw.
Qed.

Lemma C6_viewer_patch_denied_witness :
  let w1 := handleJoin 0 Fixture.parse Fixture.verify Fixture.share 5 "s1"
              (mkJoin "p1" None (Some "tok-bob"%string)) Fixture.world0 in
  let w2 := handleJoin 0 Fixture.parse Fixture.verify Fixture.share 6 "s2"
              (mkJoin "p1" (Some "share-p1"%string) None) w1 in
  let p := edgeRemoved "e1" in
  outbox (handlePatch "s1" "p1" p w2)
    = (ToClient "s1", editDenied no_permission) :: outbox w2
  /\ outbox (handlePatch "s2" "p1" p w2)
    = (ToClient "s2", editDenied login_required) :: outbox w2.
Proof.
  cbv zeta. split.
  - refine (proj1 (C6_viewer_patch_denied "s1" "p1" (edgeRemoved "e1") _
              (mkClientData "p1" (Some "bob"%string) VIEWER) _ _ _));
      vm_compute; reflexivity.
  - refine (proj1 (C6_viewer_patch_denied "s2" "p1" (edgeRemoved "e1") _
              (mkClientData "p1" None VIEWER) _ _ _));
      vm_compute; reflexivity.
Defined.

(** C7.  A patch whose [projectId] is not the one cached on the sending
    connection (or that comes from a connection that never joined) leaves
    the world exactly as it was: nothing emitted, nothing queued, no save
    armed, no store access. *)
Theorem C7_foreign_patch_dropped
  (client projectId : string) (patch : Patch) (w : World) :
  (forall d, clientData w !! client = Some d -> cd_projectId d <> projectId) ->
  handlePatch client projectId patch w = w.
Proof.
  intros H. unfold handlePatch.
  destruct (clientData w !! client) as [d|]; [|reflexivity].
  specialize (H d eq_refl). apply String.eqb_neq in H. rewrite H. reflexivity.
Qed.

Lemma C7_foreign_patch_dropped_witness :
  let w1 := handleJoin 0 Fixture.parse Fixture.verify Fixture.share 5 "s1"
              (mkJoin "p1" None (Some "tok-alice"%string)) Fixture.world0 in
  handlePatch "s1" "p2" (edgeRemoved "e1") w1 = w1.
Proof.
  cbv zeta. apply C7_foreign_patch_dropped.
  intros d H. vm_compute in H. injection H as <-. discriminate.
Defined.

(** *** Approval *)

(** C9.  [approveEdit] from a sender who is not the authenticated owner of
    the project in the store (no user id on the connection, no such project,
    or another owner) changes no table and emits nothing: memberships and
    edit requests are as before, no [memberUpdated] (nor anything else) goes
    out; an unauthenticated sender does not even reach the store. *)
Theorem C9_approve_by_non_owner_is_silent
  (client : string) (data : ApproveEditPayload) (w : World) :
  (forall me p,
      client_user client w = Some me ->
      projects (store w) !! ap_projectId data = Some p ->
      ownerId p <> me) ->
  let w' := approve client data w in
  projectMembers (store w') = projectMembers (store w)
  /\ editRequests (store w') = editRequests (store w)
  /\ projects (store w') = projects (store w)
  /\ diagrams (store w') = diagrams (store w)
  /\ outbox w' = outbox w
  /\ rooms w' = rooms w /\ groups w' = groups w
  /\ clientData w' = clientData w
  /\ (client_user client w = None -> w' = w).
Proof.
  intros H. cbv zeta. unfold approve.
  destruct (client_user client w) as [me|]; [|repeat split].
  cbn. destruct (projects (store w) !! ap_projectId data) as [p|] eqn:E;
    [|repeat split; discriminate].
  specialize (H me p eq_refl eq_refl). apply String.eqb_neq in H. rewrite H.
  cbn. repeat split; discriminate.
Qed.

Lemma C9_approve_by_non_owner_is_silent_witness :
  let w1 := handleJoin 0 Fixture.parse Fixture.verify Fixture.share 5 "s1"
              (mkJoin "p1" None (Some "tok-bob"%string)) Fixture.world0 in
  let w' := approve "s1" (mkApprove "p1" "bob" (Some "EDITOR"%string)) w1 in
  projectMembers (store w') = projectMembers (store w1)
  /\ editRequests (store w') = editRequests (store w1)
  /\ outbox w' = outbox w1.
Proof.
  cbv zeta.
  pose proof (C9_approve_by_non_owner_is_silent "s1"
                (mkApprove "p1" "bob" (Some "EDITOR"%string))
                (handleJoin 0 Fixture.parse Fixture.verify Fixture.share 5 "s1"
                   (mkJoin "p1" None (Some "tok-bob"%string)) Fixture.world0))
    as H.
  cbv zeta in H. destruct H as (Hm & He & _ & _ & Ho & _).
  - intros me p H1 H2. vm_compute in H1, H2.
    injection H1 as <-. injection H2 as <-. discriminate.
  - auto.
Defined.

(** The owner's approval does take effect: the membership row is written,
    a pending request of that user becomes APPROVED and [memberUpdated] goes
    to the project's group. *)
Lemma approve_by_owner (client : string) (data : ApproveEditPayload)
  (w : World) (p : Project) :
  client_user client w = Some (ownerId p) ->
  projects (store w) !! ap_projectId data = Some p ->
  let w' := approve client data w in
  let role := default "EDITOR"%string (ap_role data) in
  projectMembers (store w') !! (ap_projectId data, ap_userId data)
  = Some (if String.eqb role "EDITOR" then M_EDITOR else M_VIEWER)
  /\ outbox w'
     = (ToRoom (ap_projectId data), memberUpdated (ap_userId data) role)
         :: outbox w
  /\ (forall r, editRequests (store w) !! (ap_projectId data, ap_userId data) = Some r ->
        exists r', editRequests (store w') !! (ap_projectId data, ap_userId data) = Some r'
                   /\ er_status r' = APPROVED).
Proof.
  intros Hme Hp. cbv zeta. unfold approve. rewrite Hme. cbn. rewrite Hp.
  rewrite String.eqb_refl. cbn. repeat split.
  - destruct (editRequests (store w) !! (ap_projectId data, ap_userId data))
      as [old|]; [destruct (er_status old)|]; cbn; apply lookup_insert_eq.
  - intros r Hr. rewrite Hr.
    destruct (er_status r) eqn:S; cbn.
    + rewrite lookup_insert_eq. eexists. split; reflexivity.
    + exists r. split; assumption.
Qed.

(** ** REST diagram service *)

(** [assertProjectAccess] lets the owner and the members through. *)
Lemma assertProjectAccess_granted userId projectId st p :
  projects st !! projectId = Some p ->
  ownerId p = userId \/ is_Some (projectMembers st !! (projectId, userId)) ->
  DiagramsService.assertProjectAccess userId projectId st
  = (None, logged (project_findUnique projectId) st).
Proof.
  intros Hp Hacc. unfold DiagramsService.assertProjectAccess. cbn. rewrite Hp.
  destruct Hacc as [<-|Hm].
  - rewrite String.eqb_refl. reflexivity.
  - rewrite (bool_decide_eq_true_2 _ Hm), orb_true_r. reflexivity.
Qed.

(** C3 (as stated, refuted).  The record of [p1] holds
    [{ edges: "not-an-array" }]; the owner's GET returns that value as it is:
    no [nodes], and [edges] is a string. *)
Lemma C3_counterexample :
  let persisted := JObject [("edges"%string, JString "not-an-array")] in
  diagrams Fixture.store_malformed !! "p1"%string = Some persisted
  /\ (DiagramsService.getOrInitForUser 5 "alice" "p1" Fixture.store_malformed).1
     = inr persisted
  /\ snapshot_shaped persisted = false.
Proof. repeat split. Qed.

(** C3 (amended).  For a caller with access (owner or member), GET returns
    the persisted snapshot value unchanged when a record exists, and
    otherwise creates, stores and returns a fresh snapshot with empty
    [nodes] and [edges] stamped with the current time.  Hence the result has
    the snapshot shape exactly when the persisted value, if any, has it. *)
Theorem C3_get_returns_persisted_value
  (now : Z) (userId projectId : string) (st : Store) (p : Project) :
  projects st !! projectId = Some p ->
  ownerId p = userId \/ is_Some (projectMembers st !! (projectId, userId)) ->
  let fresh :=
    JObject [ ("nodes"%string, JArray []); ("edges"%string, JArray []);
              ("updatedAt"%string, JString (Iso.toISOString now)) ] in
  let result := DiagramsService.getOrInitForUser now userId projectId st in
  match diagrams st !! projectId with
  | Some persisted =>
      result.1 = inr persisted
      /\ diagrams result.2 = diagrams st
  | None =>
      result.1 = inr fresh
      /\ diagrams result.2 = <[projectId := fresh]> (diagrams st)
      /\ snapshot_shaped fresh = true
  end.
Proof.
  intros Hp Hacc. cbv zeta. unfold DiagramsService.getOrInitForUser.
  rewrite (assertProjectAccess_granted userId projectId st p Hp Hacc).
  unfold DiagramsService.getOrInit. cbn.
  destruct (diagrams st !! projectId); cbn; auto.
Qed.

Lemma C3_get_returns_persisted_value_witness :
  (DiagramsService.getOrInitForUser 5 "carol" "p1" Fixture.store0).1
  = inr (JObject [ ("nodes"%string, JArray []); ("edges"%string, JArray []);
                   ("updatedAt"%string, JString "1970-01-01T00:00:00.005Z") ]).
Proof.
  refine (proj1 (C3_get_returns_persisted_value 5 "carol" "p1" Fixture.store0
                   (mkProject "alice") _ _)).
  - reflexivity.
  - right. vm_compute. eexists. reflexivity.
Defined.

(** Without access the service answers with the error and reads no diagram. *)
Lemma getOrInitForUser_refused (now : Z) (userId projectId : string) (st : Store) :
  (forall p, projects st !! projectId = Some p ->
             ownerId p <> userId /\ projectMembers st !! (projectId, userId) = None) ->
  let result := DiagramsService.getOrInitForUser now userId projectId st in
  (result.1 = inl NotFoundException \/ result.1 = inl ForbiddenException)
  /\ diagrams result.2 = diagrams st.
Proof.
  intros H. cbv zeta.
  unfold DiagramsService.getOrInitForUser, DiagramsService.assertProjectAccess.
  cbn. destruct (projects st !! projectId) as [p|]; [|cbn; auto].
  destruct (H p eq_refl) as [Ho Hm]. apply String.eqb_neq in Ho.
  rewrite Ho, Hm. rewrite bool_decide_eq_false_2 by (intros [? ?]; discriminate).
  cbn. auto.
Qed.

(* ===================================================================== *)
(** * Further properties of the modelled code *)
(* ===================================================================== *)

(** ** Normaliser *)

Lemma toSnapshot_clock_free_fields
  (t_load : Z) (JSON_parse : string -> option JsonValue)
  (now now' : Z) (value : option JsonValue) :
  nodes (toSnapshot t_load JSON_parse now value)
  = nodes (toSnapshot t_load JSON_parse now' value)
  /\ edges (toSnapshot t_load JSON_parse now value)
     = edges (toSnapshot t_load JSON_parse now' value).
Proof.
  unfold toSnapshot.
  destruct value as [[| | |s| |obj]|]; cbn; auto.
  destruct (JSON_parse s) as [[| | | | |parsed]|]; cbn; auto.
Qed.

(** X1.  A snapshot stored as a JSON string is read as the value the string
    parses to, one level only: when the parsed value is itself a string (a
    doubly encoded snapshot) it is not parsed again and the default comes
    back. *)
Theorem X1_string_input_is_parsed_once
  (t_load : Z) (JSON_parse : string -> option JsonValue)
  (now : Z) (s : string) (v : JsonValue) :
  JSON_parse s = Some v ->
  toSnapshot t_load JSON_parse now (Some (JString s))
  = match v with
    | JString _ => EMPTY_SNAPSHOT t_load
    | _ => toSnapshot t_load JSON_parse now (Some v)
    end.
Proof. intros H. unfold toSnapshot. rewrite H. destruct v; reflexivity. Qed.

Lemma X1_string_input_is_parsed_once_witness :
  toSnapshot 7 Fixture.parse 9 (Some (JString "{}"))
  = toSnapshot 7 Fixture.parse 9 (Some (JObject [])).
Proof.
  exact (X1_string_input_is_parsed_once 7 Fixture.parse 9 "{}" (JObject [])
           eq_refl).
Defined.

(** X2.  Whatever it is given, the normaliser answers with a snapshot whose
    [updatedAt] is a non-empty string, and its [nodes] and [edges] do not
    depend on the clock. *)
Theorem X2_toSnapshot_always_stamped
  (t_load : Z) (JSON_parse : string -> option JsonValue)
  (now now' : Z) (value : option JsonValue) :
  updatedAt (toSnapshot t_load JSON_parse now value) <> EmptyString
  /\ nodes (toSnapshot t_load JSON_parse now value)
     = nodes (toSnapshot t_load JSON_parse now' value)
  /\ edges (toSnapshot t_load JSON_parse now value)
     = edges (toSnapshot t_load JSON_parse now' value).
Proof.
  split; [|apply toSnapshot_clock_free_fields].
  pose proof (toSnapshot_truthy t_load JSON_parse now value) as H.
  intros E. rewrite E in H. discriminate.
Qed.

(** ** Room registry, continued *)

(** Queueing a list of patches, one [queuePatch] after the other. *)
Lemma queue_all_room projectId (ps : list Patch) : forall w room,
  getRoom projectId w = Some room ->
  getRoom projectId (foldl (fun w p => queuePatch projectId p w) w ps)
  = Some {| snapshot := snapshot room;
            pendingPatches := pendingPatches room ++ ps;
            saveArmed := match ps with [] => saveArmed room | _ => true end |}
  /\ store (foldl (fun w p => queuePatch projectId p w) w ps) = store w.
Proof.
  induction ps as [|p ps IH]; intros w room Hroom; cbn [foldl].
  - rewrite app_nil_r. destruct room; split; [exact Hroom|reflexivity].
  - pose proof (queuePatch_present projectId p w room Hroom) as H1.
    destruct (IH _ _ H1) as [H2 H3]. cbn in H2. split.
    + rewrite H2. rewrite <- app_assoc. cbn. destruct ps; reflexivity.
    + rewrite H3. apply (queuePatch_frame projectId p w).
Qed.

(** X3.  Patches are queued in arrival order behind those already waiting,
    the save timer is armed by the first of them, and neither the room's
    snapshot nor the store is touched: patches are never applied. *)
Theorem X3_queuePatch_keeps_order_and_snapshot
  (projectId : string) (ps : list Patch) (w : World) (room : RoomState) :
  getRoom projectId w = Some room ->
  let w' := foldl (fun w p => queuePatch projectId p w) w ps in
  getRoom projectId w'
  = Some {| snapshot := snapshot room;
            pendingPatches := pendingPatches room ++ ps;
            saveArmed := match ps with [] => saveArmed room | _ => true end |}
  /\ store w' = store w.
Proof. intros H. apply queue_all_room, H. Qed.

Lemma X3_queuePatch_keeps_order_and_snapshot_witness :
  let w := (ensureRoom 0 Fixture.parse 5 "p1" Fixture.world0).2 in
  let ps := [nodeMoved "n1" 1 2; edgeRemoved "e1"; nodeMoved "n1" 3 4] in
  getRoom "p1" (foldl (fun w p => queuePatch "p1" p w) w ps)
  = Some (mkRoom (EMPTY_SNAPSHOT 0) ps true).
Proof.
  exact (proj1 (X3_queuePatch_keeps_order_and_snapshot "p1"
                  [nodeMoved "n1" 1 2; edgeRemoved "e1"; nodeMoved "n1" 3 4]
                  (ensureRoom 0 Fixture.parse 5 "p1" Fixture.world0).2
                  (mkRoom (EMPTY_SNAPSHOT 0) [] false) eq_refl)).
Defined.

(** What a save does to a room whose record exists. *)
Lemma debouncedSave_backed now projectId w room :
  getRoom projectId w = Some room ->
  is_Some (diagrams (store w) !! projectId) ->
  let saved := mkSnapshot (nodes (snapshot room)) (edges (snapshot room))
                 (Iso.toISOString now) in
  let w' := debouncedSave now projectId w in
  getRoom projectId w' = Some (mkRoom saved (pendingPatches room) false)
  /\ diagrams (store w')
     = <[projectId := snapshot_json saved]> (diagrams (store w)).
Proof.
  unfold getRoom. intros Hroom [v Hv]. cbv zeta. unfold debouncedSave.
  rewrite Hroom. unfold Prisma.diagram_set. rewrite Hv. cbn. split.
  - apply lookup_insert_eq.
  - reflexivity.
Qed.

(** X4.  When the timer of a room runs out, what is written is the snapshot
    the room was loaded with, restamped with the time of the save, whatever
    patches were queued meanwhile; the queue is left as it is (never
    drained).  What was written is what a later [loadInitial] hands out, at
    any clock reading. *)
Theorem X4_save_persists_loaded_snapshot
  (t_load : Z) (JSON_parse : string -> option JsonValue)
  (now now' : Z) (projectId : string) (ps : list Patch)
  (w : World) (room : RoomState) :
  getRoom projectId w = Some room ->
  is_Some (diagrams (store w) !! projectId) ->
  let saved := mkSnapshot (nodes (snapshot room)) (edges (snapshot room))
                 (Iso.toISOString now) in
  let w1 := foldl (fun w p => queuePatch projectId p w) w ps in
  let w2 := debouncedSave now projectId w1 in
  diagrams (store w2) !! projectId = Some (snapshot_json saved)
  /\ getRoom projectId w2
     = Some (mkRoom saved (pendingPatches room ++ ps) false)
  /\ (loadInitial t_load JSON_parse now' projectId w2).1 = saved.
Proof.
  intros Hroom Hrec. cbv zeta.
  destruct (queue_all_room projectId ps w room Hroom) as [Hq Hs].
  pose proof (debouncedSave_backed now projectId _ _ Hq) as H.
  rewrite Hs in H. specialize (H Hrec). cbv zeta in H. cbn in H.
  destruct H as [H1 H2]. rewrite H1, H2. repeat split.
  - apply lookup_insert_eq.
  - unfold loadInitial. cbn -[toSnapshot Iso.toISOString].
    rewrite H2, lookup_insert_eq. cbn -[toSnapshot Iso.toISOString].
    apply toSnapshot_fixed, toISOString_truthy.
Qed.

Lemma X4_save_persists_loaded_snapshot_witness :
  let w := (ensureRoom 0 Fixture.parse 5 "p1" Fixture.world0).2 in
  let w1 := foldl (fun w p => queuePatch "p1" p w) w [edgeRemoved "e1"] in
  diagrams (store (debouncedSave 2000 "p1" w1)) !! "p1"%string
  = Some (snapshot_json (mkSnapshot [] [] "1970-01-01T00:00:02.000Z")).
Proof.
  refine (proj1 (X4_save_persists_loaded_snapshot 0 Fixture.parse 2000 0 "p1"
                   [edgeRemoved "e1"]
                   (ensureRoom 0 Fixture.parse 5 "p1" Fixture.world0).2
                   (mkRoom (EMPTY_SNAPSHOT 0) [] false) eq_refl _)).
  vm_compute. eexists. reflexivity.
Defined.

(** The JSON value [upsert] stores for a payload. *)
Lemma upsert_value now projectId payload st :
  let v := JObject
             [ ("nodes"%string, nullish_or (JArray []) (DiagramsService.up_nodes payload));
               ("edges"%string, nullish_or (JArray []) (DiagramsService.up_edges payload));
               ("updatedAt"%string,
                JString (default (Iso.toISOString now)
                           (DiagramsService.up_updatedAt payload))) ] in
  (DiagramsService.upsert now projectId payload st).1 = v
  /\ diagrams (DiagramsService.upsert now projectId payload st).2
     = <[projectId := v]> (diagrams st)
  /\ projects (DiagramsService.upsert now projectId payload st).2 = projects st
  /\ projectMembers (DiagramsService.upsert now projectId payload st).2
     = projectMembers st.
Proof. repeat split. Qed.

(** X5.  The REST write path and the room do not know of each other: with a
    room loaded, a snapshot written by [upsert] is not seen by the next join
    (which is given the room's snapshot) and is replaced in the store, at the
    next save, by the room's snapshot. *)
Theorem X5_room_save_overwrites_rest_write
  (t_load : Z) (JSON_parse : string -> option JsonValue)
  (now now' t : Z) (projectId : string)
  (payload : DiagramsService.UpsertPayload) (patch : Patch)
  (w : World) (room : RoomState) :
  getRoom projectId w = Some room ->
  let put := DiagramsService.upsert now projectId payload (store w) in
  let w1 := with_store put.2 w in
  let w2 := debouncedSave t projectId (queuePatch projectId patch w1) in
  diagrams (store w1) !! projectId = Some put.1
  /\ (current_snapshot t_load JSON_parse now' projectId w1).1 = snapshot room
  /\ diagrams (store w2) !! projectId
     = Some (snapshot_json
               (mkSnapshot (nodes (snapshot room)) (edges (snapshot room))
                  (Iso.toISOString t))).
Proof.
  intros Hroom. cbv zeta.
  destruct (upsert_value now projectId payload (store w)) as (Hv & Hd & _).
  cbv zeta in Hv, Hd. repeat split.
  - cbn [store with_store]. rewrite Hd, Hv. apply lookup_insert_eq.
  - unfold current_snapshot. unfold getRoom in *. cbn [rooms with_store].
    rewrite Hroom. reflexivity.
  - set (w1 := with_store _ w).
    assert (H1 : getRoom projectId w1 = Some room) by exact Hroom.
    pose proof (X := queue_all_room projectId [patch] w1 room H1).
    cbn [foldl] in X. destruct X as [Hq Hs].
    pose proof (debouncedSave_backed t projectId _ _ Hq) as H.
    rewrite Hs in H. cbv zeta in H.
    destruct H as [_ H2].
    + subst w1. cbn [store with_store]. rewrite Hd, lookup_insert_eq. eauto.
    + rewrite H2. apply lookup_insert_eq.
Qed.

Lemma X5_room_save_overwrites_rest_write_witness :
  let w := (ensureRoom 0 Fixture.parse 5 "p1" Fixture.world0).2 in
  let payload :=
    DiagramsService.mkUpsert (Some (JArray [JNumber 1])) None None in
  let w1 := with_store (DiagramsService.upsert 10 "p1" payload (store w)).2 w in
  let w2 := debouncedSave 2000 "p1" (queuePatch "p1" (edgeRemoved "e1") w1) in
  diagrams (store w2) !! "p1"%string
  = Some (snapshot_json (mkSnapshot [] [] "1970-01-01T00:00:02.000Z")).
Proof.
  exact (proj2 (proj2 (X5_room_save_overwrites_rest_write 0 Fixture.parse
           10 0 2000 "p1"
           (DiagramsService.mkUpsert (Some (JArray [JNumber 1])) None None)
           (edgeRemoved "e1")
           (ensureRoom 0 Fixture.parse 5 "p1" Fixture.world0).2
           (mkRoom (EMPTY_SNAPSHOT 0) [] false) eq_refl))).
Defined.

(** X6.  [loadInitial] writes only when the record is missing: a second load
    never writes, agrees with the first on [nodes] and [edges], and returns
    the very same snapshot when the first load created the record.  (A record
    that exists but has no usable [updatedAt] is restamped at every load and
    never written back.) *)
Theorem X6_loadInitial_writes_once
  (t_load : Z) (JSON_parse : string -> option JsonValue)
  (now now' : Z) (projectId : string) (w : World) :
  let first := loadInitial t_load JSON_parse now projectId w in
  let second := loadInitial t_load JSON_parse now' projectId first.2 in
  diagrams (store second.2) = diagrams (store first.2)
  /\ nodes second.1 = nodes first.1
  /\ edges second.1 = edges first.1
  /\ (diagrams (store w) !! projectId = None -> second.1 = first.1)
  /\ (forall v, diagrams (store w) !! projectId = Some v ->
        diagrams (store second.2) = diagrams (store w)).
Proof.
  cbv zeta. unfold loadInitial. cbn -[toSnapshot].
  destruct (diagrams (store w) !! projectId) as [v|] eqn:E;
    cbn -[toSnapshot].
  - rewrite E. cbn -[toSnapshot]. repeat split; try discriminate;
      apply toSnapshot_clock_free_fields.
  - rewrite lookup_insert_eq. cbn -[toSnapshot].
    rewrite (toSnapshot_fixed t_load JSON_parse now' (EMPTY_SNAPSHOT t_load)
               (EMPTY_SNAPSHOT_truthy t_load)).
    repeat split; discriminate.
Qed.

(** ** REST diagram service, continued *)

Lemma assertProjectAccess_verdict userId projectId st :
  DiagramsService.assertProjectAccess userId projectId st
  = (access_verdict userId projectId st,
     logged (project_findUnique projectId) st).
Proof.
  unfold DiagramsService.assertProjectAccess, access_verdict. cbn.
  destruct (projects st !! projectId) as [p|]; [|reflexivity].
  destruct (String.eqb (ownerId p) userId || _); reflexivity.
Qed.

Lemma access_verdict_ext userId projectId st st' :
  projects st' = projects st ->
  projectMembers st' = projectMembers st ->
  access_verdict userId projectId st' = access_verdict userId projectId st.
Proof. unfold access_verdict. intros -> ->. reflexivity. Qed.

(** X7.  Both REST calls answer [NotFoundException] exactly when the project
    does not exist and [ForbiddenException] exactly when it exists and the
    caller is neither its owner nor a member; a refused call, read or write,
    leaves the diagram table as it was. *)
Theorem X7_rest_refusals
  (now : Z) (userId projectId : string)
  (payload : DiagramsService.UpsertPayload) (st : Store) :
  let get := DiagramsService.getOrInitForUser now userId projectId st in
  let put := DiagramsService.upsertForUser now userId projectId payload st in
  match access_verdict userId projectId st with
  | Some e =>
      get.1 = inl e /\ put.1 = inl e
      /\ diagrams get.2 = diagrams st /\ diagrams put.2 = diagrams st
  | None =>
      (exists v, get.1 = inr v) /\ (exists v, put.1 = inr v)
  end
  /\ (access_verdict userId projectId st = Some NotFoundException
      <-> projects st !! projectId = None)
  /\ (access_verdict userId projectId st = Some ForbiddenException
      <-> exists p, projects st !! projectId = Some p
                    /\ ownerId p <> userId
                    /\ projectMembers st !! (projectId, userId) = None).
Proof.
  cbv zeta.
  unfold DiagramsService.getOrInitForUser, DiagramsService.upsertForUser.
  rewrite assertProjectAccess_verdict. split; [|split].
  - destruct (access_verdict userId projectId st); cbn; [auto|].
    split; [|eexists; reflexivity].
    destruct (diagrams st !! projectId); cbn; eexists; reflexivity.
  - unfold access_verdict.
    destruct (projects st !! projectId) as [p|]; [|tauto].
    destruct (String.eqb (ownerId p) userId || _); split; discriminate.
  - unfold access_verdict.
    destruct (projects st !! projectId) as [p|].
    + destruct (String.eqb (ownerId p) userId) eqn:Eo; cbn.
      * apply String.eqb_eq in Eo. split; [discriminate|].
        intros (p' & [= <-] & Hne & _). contradiction.
      * apply String.eqb_neq in Eo.
        destruct (projectMembers st !! (projectId, userId)) as [r|] eqn:Em.
        -- rewrite bool_decide_eq_true_2 by eauto. split; [discriminate|].
           intros (p' & _ & _ & ?). discriminate.
        -- rewrite bool_decide_eq_false_2 by (intros [? ?]; discriminate).
           split; [|reflexivity]. intros _. exists p. auto.
    + split; [discriminate|]. intros (p' & ? & _). discriminate.
Qed.

(** X8.  What a granted PUT returns is what every later granted GET of the
    project returns, for any caller with access: the stored value is the
    payload with absent or null [nodes]/[edges] replaced by empty sequences
    and an absent [updatedAt] by the time of the PUT. *)
Theorem X8_rest_put_then_get
  (now now' : Z) (userId userId' projectId : string)
  (payload : DiagramsService.UpsertPayload) (st : Store) :
  access_verdict userId projectId st = None ->
  access_verdict userId' projectId st = None ->
  let put := DiagramsService.upsertForUser now userId projectId payload st in
  let get := DiagramsService.getOrInitForUser now' userId' projectId put.2 in
  put.1 = inr (JObject
                 [ ("nodes"%string,
                    nullish_or (JArray []) (DiagramsService.up_nodes payload));
                   ("edges"%string,
                    nullish_or (JArray []) (DiagramsService.up_edges payload));
                   ("updatedAt"%string,
                    JString (default (Iso.toISOString now)
                               (DiagramsService.up_updatedAt payload))) ])
  /\ get.1 = put.1.
Proof.
  intros Ha Ha'. cbv zeta.
  unfold DiagramsService.upsertForUser. rewrite assertProjectAccess_verdict, Ha.
  cbn -[DiagramsService.getOrInitForUser]. split; [reflexivity|].
  unfold DiagramsService.getOrInitForUser.
  rewrite assertProjectAccess_verdict.
  match goal with |- context [access_verdict userId' projectId ?s] =>
    rewrite (access_verdict_ext userId' projectId st s) by reflexivity end.
  rewrite Ha'.
  unfold DiagramsService.getOrInit. cbn. rewrite lookup_insert_eq. reflexivity.
Qed.

Lemma X8_rest_put_then_get_witness :
  let payload := DiagramsService.mkUpsert (Some (JArray [JNumber 1])) None None in
  let put := DiagramsService.upsertForUser 5 "alice" "p1" payload Fixture.store0 in
  (DiagramsService.getOrInitForUser 9 "carol" "p1" put.2).1
  = inr (JObject [ ("nodes"%string, JArray [JNumber 1]);
                   ("edges"%string, JArray []);
                   ("updatedAt"%string, JString "1970-01-01T00:00:00.005Z") ]).
Proof.
  cbv zeta.
  destruct (X8_rest_put_then_get 5 9 "alice" "carol" "p1"
              (DiagramsService.mkUpsert (Some (JArray [JNumber 1])) None None)
              Fixture.store0 eq_refl eq_refl) as [H1 H2].
  cbv zeta in H2. rewrite H2. exact H1.
Defined.

(** X9.  Reading twice reads the same: a second GET by the same caller
    returns what the first returned, error included, and the diagram table
    is not written by it.  The first GET writes the diagram table exactly
    when it is granted and the project has no record (it then creates the
    empty snapshot stamped with the time of the call); a refused GET and a
    GET of an existing record write nothing. *)
Theorem X9_rest_get_is_stable
  (now now' : Z) (userId projectId : string) (st : Store) :
  let first := DiagramsService.getOrInitForUser now userId projectId st in
  let second := DiagramsService.getOrInitForUser now' userId projectId first.2 in
  second.1 = first.1
  /\ diagrams second.2 = diagrams first.2
  /\ diagrams first.2
     = match access_verdict userId projectId st, diagrams st !! projectId with
       | None, None =>
           <[projectId :=
               JObject [ ("nodes"%string, JArray []);
                         ("edges"%string, JArray []);
                         ("updatedAt"%string, JString (Iso.toISOString now)) ]]>
             (diagrams st)
       | _, _ => diagrams st
       end
  /\ (forall e, first.1 = inl e -> diagrams first.2 = diagrams st)
  /\ (is_Some (diagrams st !! projectId) -> diagrams first.2 = diagrams st).
Proof.
  cbv zeta.
  assert (Hget : forall t s,
    DiagramsService.getOrInitForUser t userId projectId s
    = match access_verdict userId projectId s with
      | Some e => (inl e, logged (project_findUnique projectId) s)
      | None =>
          (inr (DiagramsService.getOrInit t projectId
                  (logged (project_findUnique projectId) s)).1,
           (DiagramsService.getOrInit t projectId
              (logged (project_findUnique projectId) s)).2)
      end).
  { intros t s. unfold DiagramsService.getOrInitForUser.
    rewrite assertProjectAccess_verdict.
    destruct (access_verdict userId projectId s); [reflexivity|].
    destruct (DiagramsService.getOrInit t projectId _); reflexivity. }
  rewrite (Hget now st).
  destruct (access_verdict userId projectId st) as [e|] eqn:Ev; cbn [fst snd];
    rewrite Hget;
    rewrite (access_verdict_ext userId projectId st _)
      by (unfold DiagramsService.getOrInit; cbn;
          try destruct (diagrams st !! projectId); reflexivity);
    rewrite Ev; cbn [fst snd];
    [repeat split; auto; destruct (diagrams st !! projectId); reflexivity|].
  unfold DiagramsService.getOrInit. cbn.
  destruct (diagrams st !! projectId) as [v|] eqn:Ed; cbn.
  - rewrite Ed. cbn. repeat split; try discriminate.
  - rewrite lookup_insert_eq. cbn. repeat split; try discriminate.
    intros [? ?]; discriminate.
Qed.

(** X10.  What REST writes, the realtime side reads back unchanged: after an
    [upsert] of arrays [ns] and [es], [loadInitial] returns exactly [ns] and
    [es].  Its [updatedAt] is the payload's when that is a non-empty string
    and the time of the write when the payload has none; an empty string is
    stored as it is and replaced, at each load, by the time of the load. *)
Theorem X10_rest_write_then_realtime_load
  (t_load : Z) (JSON_parse : string -> option JsonValue)
  (now now' : Z) (projectId : string)
  (ns es : list JsonValue) (u : option string) (w : World) :
  let payload := DiagramsService.mkUpsert (Some (JArray ns)) (Some (JArray es)) u in
  let w1 := with_store (DiagramsService.upsert now projectId payload (store w)).2 w in
  (loadInitial t_load JSON_parse now' projectId w1).1
  = mkSnapshot ns es
      match u with
      | None => Iso.toISOString now
      | Some EmptyString => Iso.toISOString now'
      | Some s => s
      end.
Proof.
  cbv zeta. unfold loadInitial. cbn -[Iso.toISOString].
  rewrite lookup_insert_eq. cbn -[Iso.toISOString].
  unfold coerceSnapshot. cbn -[Iso.toISOString].
  destruct u as [[|c s]|]; cbn -[Iso.toISOString]; try reflexivity.
  rewrite toISOString_truthy. reflexivity.
Qed.

(** ** Connection gateway, continued *)

(** X11.  The snapshot is resolved before the caller is looked at: a join
    that is refused as [unauthorized], for a project that has neither a room
    nor a diagram record, has by then created the record (the empty
    snapshot) in the store. *)
Theorem X11_denied_join_still_creates_record
  (t_load : Z) (JSON_parse : string -> option JsonValue)
  (jwt_verify : string -> option JwtPayload)
  (validateShareToken : Store -> string -> string -> bool)
  (now : Z) (client : string) (data : JoinPayload) (w : World) :
  getRoom (jp_projectId data) w = None ->
  diagrams (store w) !! jp_projectId data = None ->
  parseUserIdFromToken jwt_verify (jp_authToken data) = None ->
  as_truthy (jp_shareToken data) = None ->
  let w' := handleJoin t_load JSON_parse jwt_verify validateShareToken
              now client data w in
  outbox w' = (ToClient client, joinDenied unauthorized) :: outbox w
  /\ diagrams (store w') !! jp_projectId data
     = Some (snapshot_json (EMPTY_SNAPSHOT t_load))
  /\ queryLog (store w')
     = diagram_create (jp_projectId data)
         :: diagram_findUnique (jp_projectId data) :: queryLog (store w).
Proof.
  intros Hroom Hrec Hu Hs. cbv zeta. unfold handleJoin, current_snapshot.
  rewrite Hroom. unfold loadInitial. cbn -[EMPTY_SNAPSHOT]. rewrite Hrec.
  cbn -[EMPTY_SNAPSHOT]. rewrite Hu, Hs. cbn -[EMPTY_SNAPSHOT].
  repeat split. apply lookup_insert_eq.
Qed.

Lemma X11_denied_join_still_creates_record_witness :
  let w' := handleJoin 0 Fixture.parse Fixture.verify Fixture.share 5 "s9"
              (mkJoin "p1" None None) Fixture.world0 in
  diagrams (store w') !! "p1"%string
  = Some (snapshot_json (EMPTY_SNAPSHOT 0)).
Proof.
  exact (proj1 (proj2 (X11_denied_join_still_creates_record 0 Fixture.parse
           Fixture.verify Fixture.share 5 "s9" (mkJoin "p1" None None)
           Fixture.world0 eq_refl eq_refl eq_refl eq_refl))).
Defined.

(** X12.  At join the role stored in a membership row is not read: a user
    who is not the owner and has a row, whatever its role (a row stored as
    VIEWER included), joins with role EDITOR. *)
Theorem X12_any_membership_joins_as_editor
  (t_load : Z) (JSON_parse : string -> option JsonValue)
  (jwt_verify : string -> option JwtPayload)
  (validateShareToken : Store -> string -> string -> bool)
  (now : Z) (client : string) (data : JoinPayload) (w : World)
  (uid : string) (p : Project) (stored : MemberRole) :
  parseUserIdFromToken jwt_verify (jp_authToken data) = Some uid ->
  projects (store w) !! jp_projectId data = Some p ->
  ownerId p <> uid ->
  projectMembers (store w) !! (jp_projectId data, uid) = Some stored ->
  let projectId := jp_projectId data in
  let snap := (current_snapshot t_load JSON_parse now projectId w).1 in
  let w' := handleJoin t_load JSON_parse jwt_verify validateShareToken
              now client data w in
  outbox w'
  = (ToRoom projectId, presence (Some uid) (Some EDITOR) join)
      :: (ToClient client, joined snap EDITOR) :: outbox w
  /\ clientData w' !! client = Some (mkClientData projectId (Some uid) EDITOR).
Proof.
  intros Hu Hp Hown Hmem. cbv zeta.
  pose proof (handleJoin_authenticated t_load JSON_parse jwt_verify
                validateShareToken now client data w uid Hu) as H.
  cbv zeta in H.
  assert (R : role_of uid (jp_projectId data) (store w) = EDITOR).
  { unfold role_of. rewrite Hp. apply String.eqb_neq in Hown.
    rewrite Hown, Hmem. rewrite bool_decide_eq_true_2 by eauto. reflexivity. }
  rewrite R in H. destruct H as (Ho & _ & Hc). auto.
Qed.

Lemma X12_any_membership_joins_as_editor_witness :
  clientData (Scenario.join_as 5 "s1" "p2" "tok-bob" Scenario.world2)
    !! "s1"%string
  = Some (mkClientData "p2" (Some "bob"%string) EDITOR).
Proof.
  refine (proj2 (X12_any_membership_joins_as_editor 0 Fixture.parse
            Fixture.verify Fixture.share 5 "s1"
            (mkJoin "p2" None (Some "tok-bob"%string)) Scenario.world2
            "bob" (mkProject "dave") M_VIEWER _ _ _ _)).
  - reflexivity.
  - reflexivity.
  - discriminate.
  - reflexivity.
Defined.

(** *** Approval, continued *)

(** The tables after an approval by the owner. *)
Lemma approve_tables (client : string) (data : ApproveEditPayload)
  (w : World) (p : Project) :
  client_user client w = Some (ownerId p) ->
  projects (store w) !! ap_projectId data = Some p ->
  let key := (ap_projectId data, ap_userId data) in
  let w' := approve client data w in
  projectMembers (store w')
  = <[key := stored_role (ap_role data)]> (projectMembers (store w))
  /\ editRequests (store w')
     = match editRequests (store w) !! key with
       | Some r =>
           <[key := mkEditRequest (er_id r) APPROVED (er_message r)]>
             (editRequests (store w))
       | None => editRequests (store w)
       end
  /\ outbox w'
     = (ToRoom (ap_projectId data),
        memberUpdated (ap_userId data) (default "EDITOR"%string (ap_role data)))
         :: outbox w
  /\ clientData w' = clientData w /\ groups w' = groups w
  /\ rooms w' = rooms w /\ projects (store w') = projects (store w)
  /\ diagrams (store w') = diagrams (store w).
Proof.
  intros Hme Hp. cbv zeta. unfold approve. rewrite Hme. cbn. rewrite Hp.
  rewrite String.eqb_refl. cbn.
  destruct (editRequests (store w) !! (ap_projectId data, ap_userId data))
    as [r|] eqn:E; [destruct r as [i [|] m]|]; cbn; repeat split.
  symmetry. apply insert_id. exact E.
Qed.

(** X13.  An approval by the owner writes the target's membership row with
    role EDITOR when the role sent is ["EDITOR"] or absent and VIEWER for
    any other value, while [memberUpdated] carries the role as it was sent;
    a request of the target becomes APPROVED, no request is created when
    there is none, and other rows are left alone.  No connection's cached
    role changes.  Approving again changes neither table. *)
Theorem X13_owner_approval_effects
  (client : string) (data : ApproveEditPayload) (w : World) (p : Project) :
  client_user client w = Some (ownerId p) ->
  projects (store w) !! ap_projectId data = Some p ->
  let key := (ap_projectId data, ap_userId data) in
  let w1 := approve client data w in
  let w2 := approve client data w1 in
  projectMembers (store w1)
  = <[key := stored_role (ap_role data)]> (projectMembers (store w))
  /\ (forall r, editRequests (store w) !! key = Some r ->
        editRequests (store w1) !! key
        = Some (mkEditRequest (er_id r) APPROVED (er_message r)))
  /\ (forall k, k <> key ->
        editRequests (store w1) !! k = editRequests (store w) !! k)
  /\ (editRequests (store w) !! key = None ->
        editRequests (store w1) = editRequests (store w))
  /\ outbox w1
     = (ToRoom (ap_projectId data),
        memberUpdated (ap_userId data) (default "EDITOR"%string (ap_role data)))
         :: outbox w
  /\ clientData w1 = clientData w
  /\ projectMembers (store w2) = projectMembers (store w1)
  /\ editRequests (store w2) = editRequests (store w1).
Proof.
  intros Hme Hp. cbv zeta.
  destruct (approve_tables client data w p Hme Hp)
    as (Hm & He & Ho & Hc & _ & _ & Hpr & _). cbv zeta in *.
  assert (Hme1 : client_user client (approve client data w) = Some (ownerId p)).
  { unfold client_user in *. rewrite Hc. exact Hme. }
  assert (Hp1 : projects (store (approve client data w)) !! ap_projectId data
                = Some p) by (rewrite Hpr; exact Hp).
  destruct (approve_tables client data _ p Hme1 Hp1) as (Hm2 & He2 & _).
  cbv zeta in *. repeat split; auto.
  - intros r Hr. rewrite He, Hr. apply lookup_insert_eq.
  - intros k Hk. rewrite He.
    destruct (editRequests (store w) !! _); [|reflexivity].
    apply lookup_insert_ne. congruence.
  - intros Hn. rewrite He, Hn. reflexivity.
  - rewrite Hm2, Hm. apply insert_insert_eq.
  - rewrite He2, He.
    destruct (editRequests (store w) !! _) as [r|] eqn:E.
    + rewrite lookup_insert_eq. cbn. apply insert_insert_eq.
    + rewrite E. reflexivity.
Qed.

Lemma X13_owner_approval_effects_witness :
  let w := Scenario.join_as 5 "s1" "p1" "tok-alice" Fixture.world0 in
  let w1 := approve "s1" (mkApprove "p1" "bob" (Some "OWNER"%string)) w in
  projectMembers (store w1) !! ("p1"%string, "bob"%string) = Some M_VIEWER
  /\ outbox w1 = (ToRoom "p1", memberUpdated "bob" "OWNER") :: outbox w.
Proof.
  cbv zeta.
  destruct (X13_owner_approval_effects "s1"
              (mkApprove "p1" "bob" (Some "OWNER"%string))
              (Scenario.join_as 5 "s1" "p1" "tok-alice" Fixture.world0)
              (mkProject "alice") eq_refl eq_refl) as (Hm & _ & _ & _ & Ho & _).
  cbv zeta in Hm, Ho. split; [|exact Ho].
  rewrite Hm. apply lookup_insert_eq.
Defined.

(** A refused patch: one emit to the sender, nothing else changes. *)
Lemma refused_patch_core (client projectId : string) (patch : Patch)
  (w : World) (d : ClientData) :
  clientData w !! client = Some d ->
  cd_projectId d = projectId ->
  cd_role d = VIEWER ->
  outbox (handlePatch client projectId patch w)
  = (ToClient client,
     editDenied (match as_truthy (cd_userId d) with
                 | Some _ => no_permission
                 | None => login_required
                 end)) :: outbox w
  /\ store (handlePatch client projectId patch w) = store w
  /\ clientData (handlePatch client projectId patch w) = clientData w.
Proof.
  intros Hd Hp Hr. unfold handlePatch.
  rewrite Hd, Hp, String.eqb_refl, Hr. cbn. auto.
Qed.

(** *** Edit-access requests *)

(** [requestEdit] from a user who has a membership row in the project named
    by the message. *)
Lemma requestEdit_member (fresh_id : Store -> string)
  (client : string) (data : RequestEditPayload) (w : World)
  (u : string) (r : MemberRole) (d : ClientData) :
  clientData w !! client = Some d ->
  as_truthy (cd_userId d) = Some u ->
  projectMembers (store w) !! (rq_projectId data, u) = Some r ->
  let w' := requestEdit fresh_id client data w in
  outbox w' = (ToClient client, editGranted r) :: outbox w
  /\ clientData w' !! client
     = Some (mkClientData (cd_projectId d) (cd_userId d) EDITOR)
  /\ editRequests (store w') = editRequests (store w)
  /\ projectMembers (store w') = projectMembers (store w)
  /\ rooms w' = rooms w /\ groups w' = groups w.
Proof.
  intros Hd Hu Hm. cbv zeta. unfold requestEdit, client_user.
  rewrite Hd, Hu. cbn. rewrite Hm. cbn. repeat split.
  rewrite lookup_alter, decide_True by reflexivity. rewrite Hd. reflexivity.
Qed.

(** X14.  An approval does not reach the approved user's open connection:
    its next patch is still refused with [no_permission].  Once that user
    sends [requestEdit] for the project, the membership row is found, the
    connection gets [editGranted] with the stored role and becomes EDITOR,
    also when the row was stored as VIEWER, and its patch is relayed. *)
Theorem X14_approval_reaches_connection_via_requestEdit
  (fresh_id : Store -> string)
  (owner_client client projectId u : string) (role msg : option string)
  (patch : Patch) (w : World) (p : Project) :
  client_user owner_client w = Some (ownerId p) ->
  projects (store w) !! projectId = Some p ->
  clientData w !! client = Some (mkClientData projectId (Some u) VIEWER) ->
  truthy_string u = true ->
  let w1 := approve owner_client (mkApprove projectId u role) w in
  let w2 := handlePatch client projectId patch w1 in
  let w3 := requestEdit fresh_id client (mkRequestEdit projectId msg) w2 in
  let w4 := handlePatch client projectId patch w3 in
  outbox w2 = (ToClient client, editDenied no_permission) :: outbox w1
  /\ outbox w3 = (ToClient client, editGranted (stored_role role)) :: outbox w2
  /\ outbox w4 = (ToOthers projectId client, remotePatch patch) :: outbox w3.
Proof.
  intros Hme Hp Hd Hu. cbv zeta.
  destruct (approve_tables owner_client (mkApprove projectId u role) w p Hme Hp)
    as (Hm & _ & _ & Hc & _). cbv zeta in Hm, Hc. cbn in Hm.
  set (w1 := approve owner_client (mkApprove projectId u role) w) in *.
  assert (Hd1 : clientData w1 !! client
                = Some (mkClientData projectId (Some u) VIEWER))
    by (rewrite Hc; exact Hd).
  destruct (refused_patch_core client projectId patch w1 _ Hd1 eq_refl eq_refl)
    as (Ho2 & Hs2 & Hc2).
  cbn [cd_userId as_truthy] in Ho2. rewrite Hu in Ho2.
  set (w2 := handlePatch client projectId patch w1) in *.
  assert (Hd2 : clientData w2 !! client
                = Some (mkClientData projectId (Some u) VIEWER))
    by (rewrite Hc2; exact Hd1).
  assert (Hm2 : projectMembers (store w2) !! (projectId, u)
                = Some (stored_role role))
    by (rewrite Hs2, Hm; apply lookup_insert_eq).
  destruct (requestEdit_member fresh_id client (mkRequestEdit projectId msg)
              w2 u (stored_role role) _ Hd2) as (Ho3 & Hc3 & _).
  { cbn. rewrite Hu. reflexivity. }
  { exact Hm2. }
  cbv zeta in Ho3, Hc3. cbn [cd_projectId cd_userId] in Hc3.
  repeat split; [exact Ho2|exact Ho3|].
  unfold handlePatch at 1. rewrite Hc3. cbn [cd_projectId cd_role].
  rewrite String.eqb_refl. cbn. f_equal.
  apply (queuePatch_frame projectId patch).
Qed.

Lemma X14_approval_reaches_connection_via_requestEdit_witness :
  let w := Scenario.join_as 6 "s2" "p1" "tok-bob"
             (Scenario.join_as 5 "s1" "p1" "tok-alice" Fixture.world0) in
  let w1 := approve "s1" (mkApprove "p1" "bob" (Some "VIEWER"%string)) w in
  let w2 := handlePatch "s2" "p1" (edgeRemoved "e1") w1 in
  let w3 := requestEdit Fixture.fresh "s2" (mkRequestEdit "p1" None) w2 in
  let w4 := handlePatch "s2" "p1" (edgeRemoved "e1") w3 in
  outbox w2 = (ToClient "s2", editDenied no_permission) :: outbox w1
  /\ outbox w3 = (ToClient "s2", editGranted M_VIEWER) :: outbox w2
  /\ outbox w4 = (ToOthers "p1" "s2", remotePatch (edgeRemoved "e1")) :: outbox w3.
Proof.
  exact (X14_approval_reaches_connection_via_requestEdit Fixture.fresh
           "s1" "s2" "p1" "bob" (Some "VIEWER"%string) None (edgeRemoved "e1")
           (Scenario.join_as 6 "s2" "p1" "tok-bob"
              (Scenario.join_as 5 "s1" "p1" "tok-alice" Fixture.world0))
           (mkProject "alice") eq_refl eq_refl eq_refl eq_refl).
Defined.

(** X15.  [requestEdit] looks for a membership row in the project named by
    the message and, when it finds one, makes the connection EDITOR without
    comparing that project with the one the connection joined: a connection
    that joined a project as VIEWER, whose user is a member of any project
    at all, has its patches for the joined project relayed after sending
    [requestEdit] for the project it is a member of.  No edit request is
    recorded. *)
Theorem X15_requestEdit_grant_ignores_joined_project
  (fresh_id : Store -> string)
  (client other u : string) (msg : option string) (r : MemberRole)
  (patch : Patch) (w : World) (d : ClientData) :
  clientData w !! client = Some d ->
  as_truthy (cd_userId d) = Some u ->
  projectMembers (store w) !! (other, u) = Some r ->
  let w1 := requestEdit fresh_id client (mkRequestEdit other msg) w in
  let w2 := handlePatch client (cd_projectId d) patch w1 in
  clientData w1 !! client
  = Some (mkClientData (cd_projectId d) (cd_userId d) EDITOR)
  /\ editRequests (store w1) = editRequests (store w)
  /\ outbox w2
     = (ToOthers (cd_projectId d) client, remotePatch patch)
         :: (ToClient client, editGranted r) :: outbox w.
Proof.
  intros Hd Hu Hm. cbv zeta.
  destruct (requestEdit_member fresh_id client (mkRequestEdit other msg)
              w u r d Hd Hu Hm) as (Ho & Hc & He & _).
  cbv zeta in Ho, Hc, He. repeat split; [exact Hc|exact He|].
  unfold handlePatch at 1. rewrite Hc. cbn [cd_projectId cd_role].
  rewrite String.eqb_refl. cbn. rewrite <- Ho. f_equal.
  apply (queuePatch_frame (cd_projectId d) patch).
Qed.

Lemma X15_requestEdit_grant_ignores_joined_project_witness :
  let w := Scenario.join_as 5 "s1" "p1" "tok-bob" Scenario.world2 in
  let w1 := requestEdit Fixture.fresh "s1" (mkRequestEdit "p2" None) w in
  clientData w !! "s1"%string
  = Some (mkClientData "p1" (Some "bob"%string) VIEWER)
  /\ outbox (handlePatch "s1" "p1" (edgeRemoved "e1") w1)
     = (ToOthers "p1" "s1", remotePatch (edgeRemoved "e1"))
         :: (ToClient "s1", editGranted M_VIEWER) :: outbox w.
Proof.
  cbv zeta. split; [reflexivity|].
  exact (proj2 (proj2 (X15_requestEdit_grant_ignores_joined_project
           Fixture.fresh "s1" "p2" "bob" None M_VIEWER (edgeRemoved "e1")
           (Scenario.join_as 5 "s1" "p1" "tok-bob" Scenario.world2)
           (mkClientData "p1" (Some "bob"%string) VIEWER)
           eq_refl eq_refl eq_refl))).
Defined.

(** X16.  [requestEdit] from an authenticated user without a membership row
    records one request per (project, requester): a new row gets a fresh
    identifier, an existing row keeps its identifier; either way the row is
    PENDING with the message just sent.  The owner's channel
    [user:<ownerId>] is sent [editRequest] with that identifier and message,
    the requester is sent [requestQueued], and neither memberships nor the
    connection's role change. *)
Theorem X16_requestEdit_records_pending_request
  (fresh_id : Store -> string)
  (client : string) (data : RequestEditPayload) (w : World)
  (u : string) (p : Project) :
  client_user client w = Some u ->
  projectMembers (store w) !! (rq_projectId data, u) = None ->
  projects (store w) !! rq_projectId data = Some p ->
  truthy_string (ownerId p) = true ->
  let key := (rq_projectId data, u) in
  let w' := requestEdit fresh_id client data w in
  exists id,
    editRequests (store w')
    = <[key := mkEditRequest id PENDING (rq_message data)]>
        (editRequests (store w))
    /\ (forall old, editRequests (store w) !! key = Some old -> id = er_id old)
    /\ outbox w'
       = (ToClient client, requestQueued)
           :: (ToRoom (String.append "user:" (ownerId p)),
               editRequest (rq_projectId data) u id (rq_message data))
           :: outbox w
    /\ projectMembers (store w') = projectMembers (store w)
    /\ clientData w' = clientData w.
Proof.
  intros Hu Hm Hp Ho. cbv zeta. unfold requestEdit. rewrite Hu. cbn.
  rewrite Hm. cbn. rewrite Hp, Ho. cbn.
  destruct (editRequests (store w) !! (rq_projectId data, u)) as [old|] eqn:E;
    cbn; eexists; repeat split; try reflexivity.
  - intros ? [= <-]. reflexivity.
  - discriminate.
Qed.

Lemma X16_requestEdit_records_pending_request_witness :
  let w := Scenario.join_as 5 "s1" "p1" "tok-bob" Fixture.world0 in
  let w' := requestEdit Fixture.fresh "s1"
              (mkRequestEdit "p1" (Some "please"%string)) w in
  exists id,
    editRequests (store w') !! ("p1"%string, "bob"%string)
    = Some (mkEditRequest id PENDING (Some "please"%string))
    /\ outbox w'
       = (ToClient "s1", requestQueued)
           :: (ToRoom "user:alice",
               editRequest "p1" "bob" id (Some "please"%string))
           :: outbox w.
Proof.
  cbv zeta.
  destruct (X16_requestEdit_records_pending_request Fixture.fresh "s1"
              (mkRequestEdit "p1" (Some "please"%string))
              (Scenario.join_as 5 "s1" "p1" "tok-bob" Fixture.world0)
              "bob" (mkProject "alice") eq_refl eq_refl eq_refl eq_refl)
    as (id & He & _ & Ho & _).
  exists id. split; [|exact Ho].
  rewrite He. apply lookup_insert_eq.
Defined.

(** *** Connections and relay *)



(** X18.  A patch from a connection joined to the project as EDITOR or OWNER
    is relayed as it is, in one emit, to the others of the project's group:
    every other socket of the group receives it, the sender does not.  The
    store is not touched; when the project has a room the patch is put at
    the end of its queue and the save timer is armed, the room's snapshot
    being left as it is. *)
Theorem X18_editor_patch_is_relayed
  (client projectId : string) (patch : Patch) (w : World) (d : ClientData) :
  clientData w !! client = Some d ->
  cd_projectId d = projectId ->
  cd_role d <> VIEWER ->
  let w' := handlePatch client projectId patch w in
  outbox w' = (ToOthers projectId client, remotePatch patch) :: outbox w
  /\ receives client (ToOthers projectId client) w' = false
  /\ (forall c, c <> client -> (c, projectId) ∈ groups w ->
        receives c (ToOthers projectId client) w' = true)
  /\ store w' = store w /\ clientData w' = clientData w
  /\ (forall room, getRoom projectId w = Some room ->
        getRoom projectId w'
        = Some (mkRoom (snapshot room) (pendingPatches room ++ [patch]) true))
  /\ (getRoom projectId w = None -> rooms w' = rooms w).
Proof.
  intros Hd Hp Hr. cbv zeta.
  destruct (queuePatch_frame projectId patch w) as (_ & Hs & Hg & Hc & Ho).
  cbv zeta in *.
  assert (E : handlePatch client projectId patch w
              = emit (ToOthers projectId client) (remotePatch patch)
                  (queuePatch projectId patch w)).
  { unfold handlePatch. rewrite Hd, Hp, String.eqb_refl. cbn.
    destruct (cd_role d); [contradiction|reflexivity|reflexivity]. }
  rewrite E. cbn. rewrite Ho, Hg. repeat split; auto.
  - rewrite String.eqb_refl. apply andb_false_r.
  - intros c Hne Hin. rewrite bool_decide_eq_true_2 by exact Hin.
    apply String.eqb_neq in Hne. rewrite Hne. reflexivity.
  - intros room Hroom. apply (queuePatch_present projectId patch w room Hroom).
  - intros Hnone. rewrite (queuePatch_absent projectId patch w Hnone).
    reflexivity.
Qed.

Lemma X18_editor_patch_is_relayed_witness :
  let w := Scenario.join_as 6 "s2" "p1" "tok-bob"
             (Scenario.join_as 5 "s1" "p1" "tok-carol" Fixture.world0) in
  let w' := handlePatch "s1" "p1" (nodeMoved "n1" 3 4) w in
  outbox w' = (ToOthers "p1" "s1", remotePatch (nodeMoved "n1" 3 4)) :: outbox w
  /\ receives "s1" (ToOthers "p1" "s1") w' = false.
Proof.
  cbv zeta.
  destruct (X18_editor_patch_is_relayed "s1" "p1" (nodeMoved "n1" 3 4)
              (Scenario.join_as 6 "s2" "p1" "tok-bob"
                 (Scenario.join_as 5 "s1" "p1" "tok-carol" Fixture.world0))
              (mkClientData "p1" (Some "carol"%string) EDITOR)
              eq_refl eq_refl) as (Ho & Hr & _).
  - discriminate.
  - split; [exact Ho|exact Hr].
Defined.

(** ** The backend as a whole *)

Lemma snapshot_json_shaped s : snapshot_shaped (snapshot_json s) = true.
Proof. reflexivity. Qed.

Lemma loadInitial_table
  (t_load : Z) (JSON_parse : string -> option JsonValue) now projectId w :
  let w' := (loadInitial t_load JSON_parse now projectId w).2 in
  table_step (fun v => snapshot_shaped v = true)
    (diagrams (store w)) (diagrams (store w'))
  /\ is_Some (diagrams (store w') !! projectId)
  /\ projects (store w') = projects (store w)
  /\ projectMembers (store w') = projectMembers (store w)
  /\ editRequests (store w') = editRequests (store w).
Proof.
  cbv zeta. unfold loadInitial. cbn.
  destruct (diagrams (store w) !! projectId) as [v|] eqn:E; cbn.
  - repeat split; [left; reflexivity|]. rewrite E. eauto.
  - repeat split.
    + right. eexists _, _. split; [reflexivity|apply snapshot_json_shaped].
    + rewrite lookup_insert_eq. eauto.
Qed.

Lemma handleJoin_tables
  (t_load : Z) (JSON_parse : string -> option JsonValue)
  (jwt_verify : string -> option JwtPayload)
  (validateShareToken : Store -> string -> string -> bool)
  now client data w :
  let w' := handleJoin t_load JSON_parse jwt_verify validateShareToken
              now client data w in
  table_step (fun v => snapshot_shaped v = true)
    (diagrams (store w)) (diagrams (store w'))
  /\ projects (store w') = projects (store w)
  /\ projectMembers (store w') = projectMembers (store w)
  /\ editRequests (store w') = editRequests (store w)
  /\ groups w ⊆ groups w'.
Proof.
  cbv zeta. unfold handleJoin.
  assert (F : let w1 := (current_snapshot t_load JSON_parse now
                           (jp_projectId data) w).2 in
              table_step (fun v => snapshot_shaped v = true)
                (diagrams (store w)) (diagrams (store w1))
              /\ projects (store w1) = projects (store w)
              /\ projectMembers (store w1) = projectMembers (store w)
              /\ editRequests (store w1) = editRequests (store w)
              /\ groups w1 = groups w).
  { cbv zeta. unfold current_snapshot.
    destruct (getRoom (jp_projectId data) w).
    - cbn. repeat split. left. reflexivity.
    - destruct (loadInitial_table t_load JSON_parse now (jp_projectId data) w)
        as (H1 & _ & H2 & H3 & H4). cbv zeta in *.
      repeat split; auto.
      apply (loadInitial_frame t_load JSON_parse now (jp_projectId data) w). }
  cbv zeta in F.
  destruct (current_snapshot t_load JSON_parse now (jp_projectId data) w)
    as [snap w1]. cbn [snd] in F. destruct F as (Ft & Fp & Fm & Fe & Fg).
  destruct (as_truthy (parseUserIdFromToken jwt_verify (jp_authToken data))).
  - cbn. rewrite Fg. repeat split; auto. apply union_subseteq_r.
  - destruct (as_truthy (jp_shareToken data)) as [tok|].
    + destruct (validateShareToken (store w1) (jp_projectId data) tok); cbn;
        rewrite Fg; repeat split; auto; apply union_subseteq_r.
    + cbn. rewrite Fg. repeat split; auto.
Qed.

Lemma requestEdit_tables (fresh_id : Store -> string) client data w :
  let w' := requestEdit fresh_id client data w in
  diagrams (store w') = diagrams (store w)
  /\ projects (store w') = projects (store w)
  /\ projectMembers (store w') = projectMembers (store w)
  /\ groups w' = groups w /\ rooms w' = rooms w.
Proof.
  cbv zeta. unfold requestEdit.
  destruct (client_user client w) as [u|]; [|repeat split].
  cbn. destruct (projectMembers (store w) !! _); [repeat split|].
  cbn. destruct (projects (store w) !! _) as [p|]; [|repeat split].
  destruct (truthy_string (ownerId p)); repeat split.
Qed.

(** Memberships change only in an approval by the project's owner. *)
Lemma approve_members client data w :
  let w' := approve client data w in
  diagrams (store w') = diagrams (store w)
  /\ projects (store w') = projects (store w)
  /\ groups w' = groups w /\ rooms w' = rooms w
  /\ (projectMembers (store w') = projectMembers (store w)
      \/ exists p, client_user client w = Some (ownerId p)
                   /\ projects (store w) !! ap_projectId data = Some p
                   /\ projectMembers (store w')
                      = <[(ap_projectId data, ap_userId data) :=
                            stored_role (ap_role data)]>
                          (projectMembers (store w))).
Proof.
  cbv zeta.
  destruct (client_user client w) as [me|] eqn:Eme.
  - destruct (projects (store w) !! ap_projectId data) as [p|] eqn:Ep.
    + destruct (String.eqb (ownerId p) me) eqn:Eo.
      * apply String.eqb_eq in Eo. subst me.
        destruct (approve_tables client data w p Eme Ep)
          as (Hm & _ & _ & _ & Hg & Hr & Hp & Hd). cbv zeta in *.
        repeat split; auto. right. exists p. auto.
      * unfold approve. rewrite Eme. cbn. rewrite Ep, Eo. cbn.
        repeat split. left. reflexivity.
    + unfold approve. rewrite Eme. cbn. rewrite Ep. cbn.
      repeat split. left. reflexivity.
  - unfold approve. rewrite Eme. repeat split. left. reflexivity.
Qed.

Lemma debouncedSave_tables now projectId w :
  let w' := debouncedSave now projectId w in
  table_step (fun v => snapshot_shaped v = true)
    (diagrams (store w)) (diagrams (store w'))
  /\ projects (store w') = projects (store w)
  /\ projectMembers (store w') = projectMembers (store w)
  /\ groups w' = groups w
  /\ dom (rooms w') = dom (rooms w).
Proof.
  cbv zeta. unfold debouncedSave.
  destruct (rooms w !! projectId) as [room|] eqn:E;
    [|repeat split; left; reflexivity].
  unfold Prisma.diagram_set.
  assert (D : forall r, dom (<[projectId := r]> (rooms w)) = dom (rooms w)).
  { intros r. rewrite dom_insert_L.
    apply subseteq_union_1_L, singleton_subseteq_l.
    exact (elem_of_dom_2 _ _ _ E). }
  destruct (diagrams (store w) !! projectId); cbn; repeat split; auto.
  - right. eexists _, _. split; [reflexivity|apply snapshot_json_shaped].
  - left. reflexivity.
Qed.

Lemma ensureRoom_tables
  (t_load : Z) (JSON_parse : string -> option JsonValue) now projectId w :
  let w' := (ensureRoom t_load JSON_parse now projectId w).2 in
  table_step (fun v => snapshot_shaped v = true)
    (diagrams (store w)) (diagrams (store w'))
  /\ projects (store w') = projects (store w)
  /\ projectMembers (store w') = projectMembers (store w)
  /\ groups w' = groups w
  /\ (forall q, is_Some (rooms w' !! q) ->
        is_Some (rooms w !! q) \/ is_Some (diagrams (store w') !! q)).
Proof.
  cbv zeta. unfold ensureRoom.
  destruct (rooms w !! projectId) as [room|] eqn:E.
  - cbn. repeat split; auto. left. reflexivity.
  - destruct (loadInitial_table t_load JSON_parse now projectId w)
      as (Ht & Hrec & Hp & Hm & _).
    destruct (loadInitial_frame t_load JSON_parse now projectId w)
      as (Hr & Hg & _).
    cbv zeta in *.
    destruct (loadInitial t_load JSON_parse now projectId w) as [snap w1].
    cbn [fst snd] in *. cbn. repeat split; auto.
    intros q. rewrite lookup_insert. case_decide as Hq.
    + subst q. intros _. right. exact Hrec.
    + rewrite Hr. auto.
Qed.

Lemma rest_get_tables now userId projectId st :
  let st' := (DiagramsService.getOrInitForUser now userId projectId st).2 in
  table_step (fun v => snapshot_shaped v = true) (diagrams st) (diagrams st')
  /\ projects st' = projects st /\ projectMembers st' = projectMembers st.
Proof.
  cbv zeta. unfold DiagramsService.getOrInitForUser.
  rewrite assertProjectAccess_verdict.
  destruct (access_verdict userId projectId st);
    [cbn; repeat split; left; reflexivity|].
  unfold DiagramsService.getOrInit. cbn.
  destruct (diagrams st !! projectId); cbn; repeat split;
    [left; reflexivity|].
  right. eexists _, _. split; reflexivity.
Qed.

Lemma typed_payload_shaped now payload :
  typed_payload payload = true ->
  snapshot_shaped
    (JObject
       [ ("nodes"%string, nullish_or (JArray []) (DiagramsService.up_nodes payload));
         ("edges"%string, nullish_or (JArray []) (DiagramsService.up_edges payload));
         ("updatedAt"%string,
          JString (default (Iso.toISOString now)
                     (DiagramsService.up_updatedAt payload))) ]) = true.
Proof.
  unfold typed_payload. cbn.
  destruct (nullish_or (JArray []) (DiagramsService.up_nodes payload));
    try discriminate.
  destruct (nullish_or (JArray []) (DiagramsService.up_edges payload));
    try discriminate. reflexivity.
Qed.

Lemma rest_put_tables now userId projectId payload st :
  let st' := (DiagramsService.upsertForUser now userId projectId payload st).2 in
  table_step (fun v => typed_payload payload = true -> snapshot_shaped v = true)
    (diagrams st) (diagrams st')
  /\ projects st' = projects st /\ projectMembers st' = projectMembers st.
Proof.
  cbv zeta. unfold DiagramsService.upsertForUser.
  rewrite assertProjectAccess_verdict.
  destruct (access_verdict userId projectId st);
    [cbn; repeat split; left; reflexivity|].
  cbn. repeat split. right. eexists _, _. split; [reflexivity|].
  apply typed_payload_shaped.
Qed.

Lemma table_step_weaken (P Q : JsonValue -> Prop) a b :
  (forall v, P v -> Q v) -> table_step P a b -> table_step Q a b.
Proof.
  intros H [->|(k & v & -> & Hv)]; [left; reflexivity|].
  right. exists k, v. auto.
Qed.

(** What one event can do. *)
Lemma step_effect
  (t_load : Z) (JSON_parse : string -> option JsonValue)
  (jwt_verify : string -> option JwtPayload)
  (validateShareToken : Store -> string -> string -> bool)
  (fresh_id : Store -> string) (e : Event) (w : World) :
  let w' := step t_load JSON_parse jwt_verify validateShareToken fresh_id e w in
  projects (store w') = projects (store w)
  /\ groups w ⊆ groups w'
  /\ table_step (fun v => typed_event e = true -> snapshot_shaped v = true)
       (diagrams (store w)) (diagrams (store w'))
  /\ (forall q, is_Some (rooms w' !! q) ->
        is_Some (rooms w !! q) \/ is_Some (diagrams (store w') !! q))
  /\ (projectMembers (store w') = projectMembers (store w)
      \/ exists now client data p,
           e = Message now client (Msg_approveEdit data)
           /\ client_user client w = Some (ownerId p)
           /\ projects (store w) !! ap_projectId data = Some p
           /\ projectMembers (store w')
              = <[(ap_projectId data, ap_userId data) :=
                    stored_role (ap_role data)]> (projectMembers (store w))).
Proof.
  cbv zeta.
  assert (W : forall a b, table_step (fun v => snapshot_shaped v = true) a b ->
              table_step (fun v => typed_event e = true ->
                                   snapshot_shaped v = true) a b)
    by (intros a b; apply table_step_weaken; auto).
  assert (R : forall w', dom (rooms w') = dom (rooms w) ->
              forall q, is_Some (rooms w' !! q) ->
                is_Some (rooms w !! q) \/ is_Some (diagrams (store w') !! q)).
  { intros w' Hd q Hq. left. apply elem_of_dom. rewrite <- Hd.
    apply elem_of_dom. exact Hq. }
  destruct e as [client token|now client m|now projectId|now projectId
                |now userId projectId|now userId projectId payload];
    cbn [step].
  - unfold handleConnection.
    destruct (as_truthy (parseUserIdFromToken jwt_verify token)); cbn;
      (split; [reflexivity|]; split; [try apply union_subseteq_r; reflexivity|];
       split; [left; reflexivity|]; split; [auto|left; reflexivity]).
  - destruct m as [data|projectId patch|data|data]; cbn [handle].
    + destruct (handleJoin_tables t_load JSON_parse jwt_verify
                  validateShareToken now client data w)
        as (Ht & Hp & Hm & _ & Hg). cbv zeta in *.
      split; [exact Hp|]. split; [exact Hg|]. split; [apply W, Ht|].
      split; [apply R; rewrite handleJoin_rooms; reflexivity|left; exact Hm].
    + assert (F : store (handlePatch client projectId patch w) = store w
                  /\ groups (handlePatch client projectId patch w) = groups w
                  /\ dom (rooms (handlePatch client projectId patch w))
                     = dom (rooms w)).
      { unfold handlePatch.
        destruct (clientData w !! client) as [d|]; [|auto].
        destruct (negb _); [auto|].
        destruct (queuePatch_frame projectId patch w) as (Hd & Hs & Hg & _).
        destruct (cd_role d); cbn; auto. }
      destruct F as (Fs & Fg & Fd).
      split; [rewrite Fs; reflexivity|]. split; [rewrite Fg; reflexivity|].
      split; [rewrite Fs; left; reflexivity|].
      split; [apply R, Fd|rewrite Fs; left; reflexivity].
    + destruct (requestEdit_tables fresh_id client data w)
        as (Hd & Hp & Hm & Hg & Hr). cbv zeta in *.
      split; [exact Hp|]. split; [rewrite Hg; reflexivity|].
      split; [rewrite Hd; left; reflexivity|].
      split; [apply R; rewrite Hr; reflexivity|left; exact Hm].
    + destruct (approve_members client data w) as (Hd & Hp & Hg & Hr & Hm).
      cbv zeta in *.
      split; [exact Hp|]. split; [rewrite Hg; reflexivity|].
      split; [rewrite Hd; left; reflexivity|].
      split; [apply R; rewrite Hr; reflexivity|].
      destruct Hm as [Hm|(p & H1 & H2 & H3)]; [left; exact Hm|].
      right. exists now, client, data, p. auto.
  - destruct (rooms w !! projectId) as [room|];
      [destruct (saveArmed room)|];
      try (split; [reflexivity|]; split; [reflexivity|];
           split; [left; reflexivity|]; split; [auto|left; reflexivity]).
    destruct (debouncedSave_tables now projectId w) as (Ht & Hp & Hm & Hg & Hd).
    cbv zeta in *.
    split; [exact Hp|]. split; [rewrite Hg; reflexivity|].
    split; [apply W, Ht|]. split; [apply R, Hd|left; exact Hm].
  - destruct (ensureRoom_tables t_load JSON_parse now projectId w)
      as (Ht & Hp & Hm & Hg & Hr). cbv zeta in *.
    split; [exact Hp|]. split; [rewrite Hg; reflexivity|].
    split; [apply W, Ht|]. split; [exact Hr|left; exact Hm].
  - destruct (rest_get_tables now userId projectId (store w)) as (Ht & Hp & Hm).
    cbv zeta in *. cbn.
    split; [exact Hp|]. split; [reflexivity|]. split; [apply W, Ht|].
    split; [auto|left; exact Hm].
  - destruct (rest_put_tables now userId projectId payload (store w))
      as (Ht & Hp & Hm). cbv zeta in *. cbn.
    split; [exact Hp|]. split; [reflexivity|]. split; [exact Ht|].
    split; [auto|left; exact Hm].
Qed.

(** X19.  Whatever the backend receives, the project table is never
    written and no socket is ever taken out of a group: a connection that
    joins a second project is still in the group of the first, and goes on
    receiving what is sent to it. *)
Theorem X19_groups_only_grow
  (t_load : Z) (JSON_parse : string -> option JsonValue)
  (jwt_verify : string -> option JwtPayload)
  (validateShareToken : Store -> string -> string -> bool)
  (fresh_id : Store -> string) (es : list Event) (w : World) :
  let w' := steps t_load JSON_parse jwt_verify validateShareToken fresh_id es w in
  projects (store w') = projects (store w)
  /\ groups w ⊆ groups w'
  /\ (forall c room, receives c (ToRoom room) w = true ->
        receives c (ToRoom room) w' = true).
Proof.
  cbv zeta.
  assert (H : projects (store (steps t_load JSON_parse jwt_verify
                                 validateShareToken fresh_id es w))
              = projects (store w)
              /\ groups w ⊆ groups (steps t_load JSON_parse jwt_verify
                                      validateShareToken fresh_id es w)).
  { revert w. induction es as [|e es IH]; intros w; cbn [steps].
    - split; reflexivity.
    - destruct (IH (step t_load JSON_parse jwt_verify validateShareToken
                      fresh_id e w)) as [Hp Hg].
      destruct (step_effect t_load JSON_parse jwt_verify validateShareToken
                  fresh_id e w) as (Hp1 & Hg1 & _). cbv zeta in *.
      split; [congruence|]. etransitivity; eassumption. }
  destruct H as [Hp Hg]. repeat split; auto.
  intros c room Hr. cbn in *. apply bool_decide_eq_true in Hr.
  apply bool_decide_eq_true_2. apply Hg, Hr.
Qed.

(** X20.  Every room has a persisted diagram record, and stays so whatever
    the backend receives; so when the save timer of a room runs out the
    store's update finds its record and the room's snapshot, restamped, is
    what the store then holds. *)
Theorem X20_rooms_stay_backed
  (t_load : Z) (JSON_parse : string -> option JsonValue)
  (jwt_verify : string -> option JwtPayload)
  (validateShareToken : Store -> string -> string -> bool)
  (fresh_id : Store -> string) (es : list Event) (w : World) :
  rooms_backed w ->
  let w' := steps t_load JSON_parse jwt_verify validateShareToken fresh_id es w in
  rooms_backed w'
  /\ (forall now projectId room,
        getRoom projectId w' = Some room ->
        diagrams (store (debouncedSave now projectId w')) !! projectId
        = Some (snapshot_json
                  (mkSnapshot (nodes (snapshot room)) (edges (snapshot room))
                     (Iso.toISOString now)))).
Proof.
  intros Hw. cbv zeta.
  assert (H : rooms_backed (steps t_load JSON_parse jwt_verify
                              validateShareToken fresh_id es w)).
  { revert w Hw. induction es as [|e es IH]; intros w Hw; cbn [steps];
      [exact Hw|].
    apply IH. intros q Hq.
    destruct (step_effect t_load JSON_parse jwt_verify validateShareToken
                fresh_id e w) as (_ & _ & Ht & Hr & _). cbv zeta in *.
    destruct (Hr q Hq) as [Hold|Hnew]; [|exact Hnew].
    specialize (Hw q Hold).
    destruct Ht as [->|(k & v & -> & _)]; [exact Hw|].
    rewrite lookup_insert. case_decide; eauto. }
  split; [exact H|].
  intros now projectId room Hroom.
  destruct (debouncedSave_backed now projectId _ room Hroom) as [_ Hd].
  - apply H. unfold getRoom in Hroom. rewrite Hroom. eauto.
  - cbv zeta in Hd. rewrite Hd. apply lookup_insert_eq.
Qed.

Lemma X20_rooms_stay_backed_witness :
  rooms_backed
    (steps 0 Fixture.parse Fixture.verify Fixture.share Fixture.fresh
       [ EnsureRoom 5 "p1";
         Message 6 "s1" (Msg_join (mkJoin "p1" None (Some "tok-alice"%string)));
         Message 7 "s1" (Msg_patch "p1" (edgeRemoved "e1"));
         TimerFired 900 "p1" ]
       Fixture.world0).
Proof.
  refine (proj1 (X20_rooms_stay_backed 0 Fixture.parse Fixture.verify
                   Fixture.share Fixture.fresh _ Fixture.world0 _)).
  intros q [r Hq]. vm_compute in Hq. discriminate.
Defined.

(** X21.  When every PUT body has the declared type, the backend writes only
    well-shaped snapshots: if all persisted snapshots have [nodes] and
    [edges] as sequences, so they have after any run of events, and a GET
    then returns a value with that shape. *)
Theorem X21_store_stays_shaped
  (t_load : Z) (JSON_parse : string -> option JsonValue)
  (jwt_verify : string -> option JwtPayload)
  (validateShareToken : Store -> string -> string -> bool)
  (fresh_id : Store -> string) (es : list Event) (w : World) :
  all_shaped (store w) ->
  forallb typed_event es = true ->
  let w' := steps t_load JSON_parse jwt_verify validateShareToken fresh_id es w in
  all_shaped (store w')
  /\ (forall now userId projectId v,
        (DiagramsService.getOrInitForUser now userId projectId (store w')).1
        = inr v ->
        snapshot_shaped v = true).
Proof.
  intros Hw Hes. cbv zeta.
  assert (H : all_shaped (store (steps t_load JSON_parse jwt_verify
                                   validateShareToken fresh_id es w))).
  { revert w Hw Hes. induction es as [|e es IH]; intros w Hw Hes; cbn [steps];
      [exact Hw|].
    cbn in Hes. apply andb_true_iff in Hes as [He Hes].
    apply IH; [|exact Hes]. intros q v Hq.
    destruct (step_effect t_load JSON_parse jwt_verify validateShareToken
                fresh_id e w) as (_ & _ & Ht & _). cbv zeta in *.
    destruct Ht as [Ht|(k & x & Ht & Hx)]; rewrite Ht in Hq;
      [exact (Hw q v Hq)|].
    rewrite lookup_insert in Hq. case_decide.
    - injection Hq as <-. exact (Hx He).
    - exact (Hw q v Hq). }
  split; [exact H|].
  intros now userId projectId v.
  unfold DiagramsService.getOrInitForUser.
  rewrite assertProjectAccess_verdict.
  destruct (access_verdict userId projectId _); [discriminate|].
  unfold DiagramsService.getOrInit. cbn.
  destruct (diagrams _ !! projectId) as [x|] eqn:E; cbn; intros [= <-].
  - exact (H projectId x E).
  - reflexivity.
Qed.

Lemma X21_store_stays_shaped_witness :
  all_shaped
    (store
       (steps 0 Fixture.parse Fixture.verify Fixture.share Fixture.fresh
          [ RestPut 5 "alice" "p1"
              (DiagramsService.mkUpsert (Some (JArray [JNumber 1])) None None);
            Message 6 "s1" (Msg_join (mkJoin "p1" None (Some "tok-bob"%string)));
            RestGet 7 "carol" "p1" ]
          Fixture.world0)).
Proof.
  refine (proj1 (X21_store_stays_shaped 0 Fixture.parse Fixture.verify
                   Fixture.share Fixture.fresh _ Fixture.world0 _ _)).
  - intros q v Hq. vm_compute in Hq. discriminate.
  - reflexivity.
Defined.

(** X22.  Membership rows are written by one thing only: an [approveEdit]
    sent on a connection whose cached user is the owner, in the store, of
    the project named in the message.  No other message, no connection, no
    timer and no REST call on a diagram changes the membership table. *)
Theorem X22_memberships_change_only_by_owner_approval
  (t_load : Z) (JSON_parse : string -> option JsonValue)
  (jwt_verify : string -> option JwtPayload)
  (validateShareToken : Store -> string -> string -> bool)
  (fresh_id : Store -> string) (e : Event) (w : World) :
  let w' := step t_load JSON_parse jwt_verify validateShareToken fresh_id e w in
  projectMembers (store w') = projectMembers (store w)
  \/ exists now client data p,
       e = Message now client (Msg_approveEdit data)
       /\ client_user client w = Some (ownerId p)
       /\ projects (store w) !! ap_projectId data = Some p
       /\ projectMembers (store w')
          = <[(ap_projectId data, ap_userId data) := stored_role (ap_role data)]>
              (projectMembers (store w)).
Proof.
  apply (step_effect t_load JSON_parse jwt_verify validateShareToken
           fresh_id e w).
Qed.

(** X23.  Token parsing never fails and never yields an empty user id: an
    absent or empty token and a token the verifier rejects give null, and a
    payload whose [id] and [sub] are both absent or empty gives null; [id]
    is taken when it is non-empty, [sub] otherwise. *)
Theorem X23_parseUserIdFromToken_total
  (jwt_verify : string -> option JwtPayload) (token : option string) :
  parseUserIdFromToken jwt_verify token <> Some EmptyString
  /\ (as_truthy token = None -> parseUserIdFromToken jwt_verify token = None)
  /\ (forall tok, as_truthy token = Some tok -> jwt_verify tok = None ->
        parseUserIdFromToken jwt_verify token = None)
  /\ (forall tok payload,
        as_truthy token = Some tok -> jwt_verify tok = Some payload ->
        parseUserIdFromToken jwt_verify token
        = match as_truthy (jwt_id payload) with
          | Some i => Some i
          | None => as_truthy (jwt_sub payload)
          end).
Proof.
  repeat split.
  - intros H. pose proof (parseUserIdFromToken_truthy jwt_verify token) as T.
    rewrite H in T. discriminate.
  - unfold parseUserIdFromToken. intros ->. reflexivity.
  - unfold parseUserIdFromToken. intros tok -> ->. reflexivity.
  - unfold parseUserIdFromToken. intros tok payload -> ->. reflexivity.
Qed.

(** X24.  Patches that arrive before the save timer runs out are saved
    together: after any non-empty burst of patches for a room, the timer
    running out makes exactly one store update and disarms the timer, so
    that its running out again changes nothing until the next patch. *)
Theorem X24_burst_of_patches_one_write
  (t_load : Z) (JSON_parse : string -> option JsonValue)
  (jwt_verify : string -> option JwtPayload)
  (validateShareToken : Store -> string -> string -> bool)
  (fresh_id : Store -> string)
  (now now' : Z) (projectId : string) (p : Patch) (ps : list Patch)
  (w : World) (room : RoomState) :
  getRoom projectId w = Some room ->
  let fire t := step t_load JSON_parse jwt_verify validateShareToken fresh_id
                  (TimerFired t projectId) in
  let w1 := foldl (fun w p => queuePatch projectId p w) w (p :: ps) in
  let w2 := fire now w1 in
  queryLog (store w2) = diagram_update projectId :: queryLog (store w)
  /\ (exists r, getRoom projectId w2 = Some r /\ saveArmed r = false
                /\ pendingPatches r = pendingPatches room ++ p :: ps)
  /\ fire now' w2 = w2.
Proof.
  intros Hroom. cbv zeta.
  destruct (queue_all_room projectId (p :: ps) w room Hroom) as [Hq Hs].
  set (w1 := foldl _ w (p :: ps)) in *. unfold getRoom in Hq.
  assert (E : step t_load JSON_parse jwt_verify validateShareToken fresh_id
                (TimerFired now projectId) w1 = debouncedSave now projectId w1).
  { cbn [step]. rewrite Hq. reflexivity. }
  rewrite E. unfold debouncedSave. rewrite Hq.
  cbn [snapshot pendingPatches].
  assert (L : forall v st, queryLog (Prisma.diagram_set projectId v st).2
                           = diagram_update projectId :: queryLog st).
  { intros v st. unfold Prisma.diagram_set.
    destruct (diagrams st !! projectId); reflexivity. }
  specialize (L (snapshot_json
                   (mkSnapshot (nodes (snapshot room)) (edges (snapshot room))
                      (Iso.toISOString now))) (store w1)).
  destruct (Prisma.diagram_set projectId _ (store w1)) as [ok st].
  cbn [snd] in L. rewrite Hs in L.
  match goal with |- context [with_rooms ?m ?x] => set (w2 := with_rooms m x) end.
  assert (Hr2 : exists r, rooms w2 !! projectId = Some r /\ saveArmed r = false
                          /\ pendingPatches r = pendingPatches room ++ p :: ps).
  { eexists. split; [subst w2; cbn [rooms with_rooms]; apply lookup_insert_eq|].
    split; reflexivity. }
  split; [exact L|]. split; [exact Hr2|].
  cbn [step]. destruct Hr2 as (r & -> & -> & _). reflexivity.
Qed.

Lemma X24_burst_of_patches_one_write_witness :
  let w := (ensureRoom 0 Fixture.parse 5 "p1" Fixture.world0).2 in
  let fire t := step 0 Fixture.parse Fixture.verify Fixture.share Fixture.fresh
                  (TimerFired t "p1") in
  let w1 := foldl (fun w p => queuePatch "p1" p w) w
              [nodeMoved "n1" 1 2; nodeMoved "n1" 3 4; edgeRemoved "e1"] in
  queryLog (store (fire 900 w1)) = diagram_update "p1" :: queryLog (store w)
  /\ fire 2000 (fire 900 w1) = fire 900 w1.
Proof.
  cbv zeta.
  destruct (X24_burst_of_patches_one_write 0 Fixture.parse Fixture.verify
              Fixture.share Fixture.fresh 900 2000 "p1"
              (nodeMoved "n1" 1 2) [nodeMoved "n1" 3 4; edgeRemoved "e1"]
              (ensureRoom 0 Fixture.parse 5 "p1" Fixture.world0).2
              (mkRoom (EMPTY_SNAPSHOT 0) [] false) eq_refl)
    as (H1 & _ & H3).
  split; [exact H1|exact H3].
Defined.

(** X25.  On disconnect, a connection that completed an authenticated join
    has a [presence] leave event, carrying its user id and no role, sent to
    the group of the project it joined (none when the project id is the
    empty string); a connection that never joined and whose join was
    refused leaves without any event. *)
Theorem X25_disconnect_presence
  (t_load : Z) (JSON_parse : string -> option JsonValue)
  (jwt_verify : string -> option JwtPayload)
  (validateShareToken : Store -> string -> string -> bool)
  (now : Z) (client : string) (data : JoinPayload) (w : World) :
  let w' := handleJoin t_load JSON_parse jwt_verify validateShareToken
              now client data w in
  (forall uid,
      parseUserIdFromToken jwt_verify (jp_authToken data) = Some uid ->
      handleDisconnect client w'
      = if truthy_string (jp_projectId data)
        then emit (ToRoom (jp_projectId data)) (presence (Some uid) None leave) w'
        else w')
  /\ (parseUserIdFromToken jwt_verify (jp_authToken data) = None ->
      as_truthy (jp_shareToken data) = None ->
      clientData w !! client = None ->
      handleDisconnect client w' = w').
Proof.
  cbv zeta. split.
  - intros uid Hu.
    destruct (handleJoin_authenticated t_load JSON_parse jwt_verify
                validateShareToken now client data w uid Hu) as (_ & _ & Hc).
    cbv zeta in Hc. unfold handleDisconnect. rewrite Hc. reflexivity.
  - intros Hu Hs Hd.
    destruct (handleJoin_unauthorized t_load JSON_parse jwt_verify
                validateShareToken now client data w Hu Hs) as (_ & _ & Hc).
    cbv zeta in Hc. unfold handleDisconnect. rewrite Hc, Hd. reflexivity.
Qed.
